(** * F1 drivers report: row model, colour resolution and headshot cache

    A shallow embedding of [main.py] (report with headshots) and
    [noheadshot.py] (report without headshots), and the properties of the
    row builder, the colour resolver, the headshot cache and the table
    assembly that follow from the code.

    Layout of the file:
    - Python values, dictionaries, exceptions;
    - the external collaborators (reportlab colours, requests, PIL) as
      an interface;
    - a small monad for code that touches the file system, the network
      and standard output and may raise;
    - [Module Main] and [Module NoHeadshot], one per source file;
    - a concrete instance of the collaborators, used for closed examples;
    - the theorems. *)

From stdpp Require Import base strings gmap list pretty.
From Stdlib Require Import ZArith Lia.

Open Scope Z_scope.

(** ** Python values

    The records come from [response.json()], so a field holds a JSON
    value.  Null, booleans, integers and strings are represented as such.
    Any other JSON value (a float, an array, an object) is represented by
    the three observations the program can make of it: its type name,
    its truth value and its [str()] text. *)

Inductive jtype := TFloat | TList | TDict.

Inductive pyval :=
| PNone
| PBool (b : bool)
| PInt (n : Z)
| PStr (s : string)
| POther (t : jtype) (truth : bool) (text : string).

Definition jtype_name (t : jtype) : string :=
  match t with TFloat => "float" | TList => "list" | TDict => "dict" end.

(** [type(v).__name__] *)
Definition type_name (v : pyval) : string :=
  match v with
  | PNone => "NoneType"
  | PBool _ => "bool"
  | PInt _ => "int"
  | PStr _ => "str"
  | POther t _ _ => jtype_name t
  end.

(** [str(v)], which is what an f-string applies to an interpolated value. *)
Definition py_str (v : pyval) : string :=
  match v with
  | PNone => "None"
  | PBool true => "True"
  | PBool false => "False"
  | PInt n => pretty n
  | PStr s => s
  | POther _ _ text => text
  end.

(** [bool(v)], the test made by [if v] and [not v]. *)
Definition truthy (v : pyval) : bool :=
  match v with
  | PNone => false
  | PBool b => b
  | PInt n => negb (Z.eqb n 0)
  | PStr s => negb (String.eqb s "")
  | POther _ truth _ => truth
  end.

(** [str.lower] on the ASCII letters.  Bytes outside [A-Z] are kept: no
    character outside ASCII lowers to one of the letters of ["none"], so
    the comparison the program makes with ["none"] is not affected. *)
Definition ascii_lower (c : Ascii.ascii) : Ascii.ascii :=
  let n := Ascii.nat_of_ascii c in
  if ((65 <=? n) && (n <=? 90))%nat then Ascii.ascii_of_nat (n + 32)%nat else c.

Fixpoint lower (s : string) : string :=
  match s with
  | EmptyString => EmptyString
  | String c rest => String (ascii_lower c) (lower rest)
  end.

(** ** Exceptions and results *)

Inductive exn_class :=
| AttributeError
| ValueError
| FileExistsError
| IndexError
| OtherException (name : string).

(** An exception object: its class and its [str()] text.  Every class
    here derives from [Exception], so [except Exception] catches it. *)
Record exn := Exn { exn_cls : exn_class; exn_msg : string }.

Inductive result (A : Type) :=
| Ok (a : A)
| Raise (e : exn).
Arguments Ok {A} a.
Arguments Raise {A} e.

#[export] Instance result_ret : MRet result := fun A a => Ok a.
#[export] Instance result_bind : MBind result := fun A B f m =>
  match m with Ok a => f a | Raise e => Raise e end.

(** [v.lower()]: only [str] has the method. *)
Definition py_lower (v : pyval) : result string :=
  match v with
  | PStr s => Ok (lower s)
  | _ => Raise (Exn AttributeError
                  ("'" +:+ type_name v +:+ "' object has no attribute 'lower'"))
  end.

(** ** Dictionaries *)

(** A record of the roster is a [dict] with string keys. *)
Abbreviation dict := (gmap string pyval).

(** [d.get(key, default)] *)
Definition dict_get (d : dict) (key : string) (default : pyval) : pyval :=
  match d !! key with
  | Some v => v
  | None => default
  end.

(** [l[i]] on a list: [IndexError] out of range (for the indices used
    here, which are never negative). *)
Definition list_index {A} (l : list A) (i : nat) : result A :=
  match l !! i with
  | Some x => Ok x
  | None => Raise (Exn IndexError "list index out of range")
  end.

(** ** Colours, responses, the file system *)

(** A reportlab colour.  Every colour of this program is built from
    8-bit channels [c] as [Color(r/255.0, g/255.0, b/255.0)]; the record
    keeps the three channel values. *)
Record Color := mkColor { red : Z; green : Z; blue : Z }.

(** [colors.darkred], [colors.white], [colors.black] *)
Definition darkred : Color := mkColor 139 0 0.
Definition white : Color := mkColor 255 255 255.
Definition black : Color := mkColor 0 0 0.

(** What the program reads of a [requests] response. *)
Record Response := mkResponse { status_code : Z; content : string }.

(** The file system as the program sees it: which paths exist, and
    whether as a directory or as a file.  The program never reads a file
    back, so contents are left out.  A path is the text the program
    hands to the operating system, relative to the working directory;
    the map does not resolve [.], [..] or links, so two texts are two
    entries.  The paths of the program are [f1_logo.png], [headshots],
    the output file and [headshots/<id>.png]; the last names an entry of
    [headshots] when the text of the id has no [/], and statements about
    paths the program leaves alone are made for such ids. *)
Inductive node := Dir | File.

Abbreviation filesystem := (gmap string node).

(** ** The document model handed to the layout engine *)

(** A table cell: a plain value, or an image flowable of a given size. *)
Inductive cell :=
| cell_val (v : pyval)
| cell_image (path : string) (width height : Z).

(** The commands of a [TableStyle]: a name, two corners (column, row),
    and the arguments. *)
Inductive style_cmd :=
| BACKGROUND (start stop : Z * Z) (c : Color)
| TEXTCOLOR (start stop : Z * Z) (c : Color)
| ALIGN (start stop : Z * Z) (how : string)
| FONTNAME (start stop : Z * Z) (font : string)
| BOTTOMPADDING (start stop : Z * Z) (pad : Z)
| GRID (start stop : Z * Z) (weight : Z) (c : Color).

Inductive flowable :=
| RLImage (path : string) (width height : Z)
| Paragraph (text style : string)
| Spacer (width height : Z)
| Table (data : list (list cell)) (colWidths : list Z) (style : list style_cmd).

(** ** External collaborators

    The colour constructor and the layout engine of reportlab, the HTTP
    client and the image library are not part of the repository.  The
    program is modelled over any behaviour of theirs: each may return or
    raise.  [Image_save_error] tells whether [img.save(path)] raises in
    a given file system, [doc_build_outcome] what [doc.build] does with
    a document, an output path and a file system. *)

(** What [doc.build] can do: write the output file and return, or raise,
    having written (part of) the output file or not. *)
Inductive build_outcome :=
| Built
| BuildFailed (e : exn) (wrote : bool).

Class Collaborators := {
  HexColor : string -> result Color;
  requests_get : pyval -> result Response;
  PILImage : Type;
  Image_open : string -> result PILImage;
  Image_resize : PILImage -> Z * Z -> result PILImage;
  Image_save_error : PILImage -> string -> filesystem -> option exn;
  doc_build_outcome : string -> list flowable -> filesystem -> build_outcome
}.

(** ** Effects

    What a call does to the outside world, in order. *)
Inductive event :=
| ev_makedirs (path : string)
| ev_exists (path : string)
| ev_get (url : pyval)
| ev_save (path : string)
| ev_print (text : string)
| ev_build (filename : string) (elements : list flowable).

(** A computation reads and updates the file system, logs its events
    and returns a value or raises. *)
Definition M (A : Type) : Type := filesystem -> result A * filesystem * list event.

#[export] Instance M_ret : MRet M := fun A a fs => (Ok a, fs, []).
#[export] Instance M_bind : MBind M := fun A B k m fs =>
  match m fs with
  | (Ok a, fs1, t1) =>
      match k a fs1 with (r, fs2, t2) => (r, fs2, t1 ++ t2) end
  | (Raise e, fs1, t1) => (Raise e, fs1, t1)
  end.

(** A pure computation that may raise, run inside [M]. *)
Definition lift {A} (r : result A) : M A := fun fs => (r, fs, []).

(** [try: body  except Exception as e: handler e] *)
Definition try_except {A} (body : M A) (handler : exn -> M A) : M A := fun fs =>
  match body fs with
  | (Ok a, fs1, t1) => (Ok a, fs1, t1)
  | (Raise e, fs1, t1) =>
      match handler e fs1 with (r, fs2, t2) => (r, fs2, t1 ++ t2) end
  end.

(** [print(text)]: the line is written to standard output.  That the
    write may fail (a closed stream, an encoding that lacks a character)
    is not modelled. *)
Definition print (text : string) : M unit := fun fs => (Ok tt, fs, [ev_print text]).

(** [os.path.exists(path)] *)
Definition os_path_exists (path : string) : M bool := fun fs =>
  (Ok (bool_decide (is_Some (fs !! path))), fs, [ev_exists path]).

(** [os.makedirs(path, exist_ok=True)] for a single-component path: a
    no-op on a directory, [FileExistsError] on a file, and the directory
    is created when nothing is there.  That the operating system may
    refuse the creation (permissions, a read-only disk) is not modelled:
    a statement that needs the directory says so and is about runs in
    which it exists or can be created. *)
Definition os_makedirs (path : string) : M unit := fun fs =>
  match fs !! path with
  | Some Dir => (Ok tt, fs, [ev_makedirs path])
  | Some File =>
      (Raise (Exn FileExistsError ("[Errno 17] File exists: '" +:+ path +:+ "'")),
       fs, [ev_makedirs path])
  | None => (Ok tt, <[path := Dir]> fs, [ev_makedirs path])
  end.

(** [doc.build(elements, ...)] of a [SimpleDocTemplate(filename, ...)]:
    the layout engine receives the element list; it writes the output
    file and returns, or it raises (a layout error, an output path that
    cannot be written).  The event records the call, whatever its
    outcome.  How the elements are laid out over pages, and the
    page-number callback, are the engine's business and not modelled. *)
Definition doc_build `{Collaborators} (filename : string) (elements : list flowable)
  : M unit := fun fs =>
  match doc_build_outcome filename elements fs with
  | Built => (Ok tt, <[filename := File]> fs, [ev_build filename elements])
  | BuildFailed e wrote =>
      (Raise e, if wrote : bool then <[filename := File]> fs else fs,
       [ev_build filename elements])
  end.

(** ** main.py: the report with headshots *)

Module Main.
Section WithCollaborators.
Context `{Collaborators}.

(** [requests.get(image_url, stream=True)] *)
Definition get (image_url : pyval) : M Response := fun fs =>
  (requests_get image_url, fs, [ev_get image_url]).

(** [img.save(file_path)]: raises, or creates the file.  Whether it
    raises is the image library's answer for this path in this file
    system (a missing directory, a directory at the path, an encoder
    error). *)
Definition save (img : PILImage) (file_path : string) : M unit := fun fs =>
  match Image_save_error img file_path fs with
  | Some e => (Raise e, fs, [ev_save file_path])
  | None => (Ok tt, <[file_path := File]> fs, [ev_save file_path])
  end.

(** [f"headshots/{driver_id}.png"] *)
Definition file_path (driver_id : pyval) : string :=
  "headshots/" +:+ py_str driver_id +:+ ".png".

(** [f"⚠️ Failed to download image for {driver_id}: {e}"] *)
Definition warning (driver_id : pyval) (e : exn) : string :=
  "⚠️ Failed to download image for " +:+ py_str driver_id +:+ ": " +:+ exn_msg e.

(** [download_headshot(image_url, driver_id)]: the path of the cached
    headshot, or [None]. *)
Definition download_headshot (image_url driver_id : pyval) : M (option string) :=
  if negb (truthy image_url) then mret None
  else
    let file_path := file_path driver_id in
    os_makedirs "headshots";;
    found ← os_path_exists file_path;
    if found : bool then mret (Some file_path)
    else
      try_except
        (response ← get image_url;
         if status_code response =? 200 then
           img ← lift (Image_open (content response));
           img ← lift (Image_resize img (50, 50));
           save img file_path;;
           mret (Some file_path)
         else mret None)
        (fun e => print (warning driver_id e);; mret None).

(** The loop body of [create_pdf], one definition per variable. *)

Definition driver_id (driver : dict) : pyval :=
  dict_get driver "driver_id"
    (PStr ("unknown_" +:+ py_str (dict_get driver "driver_number" (PStr "N/A")))).

Definition headshot_url (driver : dict) : pyval :=
  dict_get driver "headshot_url" PNone.

Definition headshot (driver : dict) : M (option string) :=
  if truthy (headshot_url driver)
  then download_headshot (headshot_url driver) (driver_id driver)
  else mret None.

Definition image (headshot : option string) : cell :=
  match headshot with
  | Some path => cell_image path 50 50
  | None => cell_val (PStr "N/A")
  end.

Definition team_color (driver : dict) : result Color :=
  let hex_color := dict_get driver "team_colour" PNone in
  use_default ←
    (if negb (truthy hex_color) then Ok true
     else l ← py_lower hex_color; Ok (String.eqb l "none"));
  let hex_color := if use_default : bool then PStr "CCCCCC" else hex_color in
  HexColor ("#" +:+ py_str hex_color).

Definition table_row (image : cell) (driver : dict) : list cell :=
  [ image;
    cell_val (dict_get driver "driver_number" (PStr "N/A"));
    cell_val (PStr (py_str (dict_get driver "first_name" (PStr "N/A")) +:+ " "
                    +:+ py_str (dict_get driver "last_name" (PStr "N/A"))));
    cell_val (dict_get driver "name_acronym" (PStr "N/A"));
    cell_val (dict_get driver "team_name" (PStr "N/A"));
    cell_val (dict_get driver "dob" (PStr "N/A"));
    cell_val (dict_get driver "country_code" (PStr "N/A")) ].

(** [for driver in drivers_data: ...], appending to [table_data] and
    [row_colors]. *)
Fixpoint populate (drivers_data : list dict)
    (table_data : list (list cell)) (row_colors : list Color)
  : M (list (list cell) * list Color) :=
  match drivers_data with
  | [] => mret (table_data, row_colors)
  | driver :: rest =>
      headshot ← headshot driver;
      team_color ← lift (team_color driver);
      populate rest (table_data ++ [table_row (image headshot) driver])
                    (row_colors ++ [team_color])
  end.

Definition header : list cell :=
  cell_val ∘ PStr <$>
    ["Headshot"; "Driver #"; "Full Name"; "Abbreviation"; "Team"; "DOB"; "Nationality"].

Definition col_widths : list Z := [60; 60; 150; 80; 140; 100; 100].

Definition base_style : list style_cmd :=
  [ BACKGROUND (0, 0) (-1, 0) darkred;
    TEXTCOLOR (0, 0) (-1, 0) white;
    ALIGN (0, 0) (-1, -1) "CENTER";
    FONTNAME (0, 0) (-1, 0) "Helvetica-Bold";
    BOTTOMPADDING (0, 0) (-1, 0) 10;
    GRID (0, 0) (-1, -1) 1 black ].

(** [for i in range(1, len(table_data)): style.append(('BACKGROUND',
    (0, i), (-1, i), row_colors[i-1]))], over the indices [rows]. *)
Fixpoint apply_row_colors (rows : list nat) (row_colors : list Color)
    (style : list style_cmd) : result (list style_cmd) :=
  match rows with
  | [] => Ok style
  | i :: rest =>
      c ← list_index row_colors (i - 1);
      apply_row_colors rest row_colors
        (style ++ [BACKGROUND (0, Z.of_nat i) (-1, Z.of_nat i) c])
  end.

(** [create_pdf] up to the call of [doc.build]: the element list. *)
Definition elements (drivers_data : list dict) : M (list flowable) :=
  let elements := [] in
  let logo_path := "f1_logo.png" in
  found ← os_path_exists logo_path;
  let elements := if found : bool then elements ++ [RLImage logo_path 100 50] else elements in
  let title :=
    Paragraph "<b><font size='18' color='darkred'>Formula 1 Drivers Report</font></b>"
              "Title" in
  let elements := elements ++ [title] in
  let elements := elements ++ [Spacer 1 12] in
  let table_data := [header] in
  '(table_data, row_colors) ← populate drivers_data table_data [];
  style ← lift (apply_row_colors (seq 1 (length table_data - 1)) row_colors base_style);
  mret (elements ++ [Table table_data col_widths style]).

(** [create_pdf(drivers_data, filename)] *)
Definition create_pdf (drivers_data : list dict) (filename : string) : M unit :=
  elements ← elements drivers_data;
  doc_build filename elements;;
  print ("✅ PDF '" +:+ filename +:+ "' created successfully!").

End WithCollaborators.

(** The default of the [filename] argument. *)
Definition default_filename : string := "f1_drivers_report_heads.pdf".

End Main.

(** ** noheadshot.py: the report without headshots *)

Module NoHeadshot.
Section WithCollaborators.
Context `{Collaborators}.

Definition team_color (driver : dict) : result Color :=
  let hex_color := dict_get driver "team_colour" PNone in
  use_default ←
    (if negb (truthy hex_color) then Ok true
     else l ← py_lower hex_color; Ok (String.eqb l "none"));
  let hex_color := if use_default : bool then PStr "CCCCCC" else hex_color in
  HexColor ("#" +:+ py_str hex_color).

Definition table_row (driver : dict) : list cell :=
  [ cell_val (dict_get driver "driver_number" (PStr "N/A"));
    cell_val (PStr (py_str (dict_get driver "first_name" (PStr "N/A")) +:+ " "
                    +:+ py_str (dict_get driver "last_name" (PStr "N/A"))));
    cell_val (dict_get driver "name_acronym" (PStr "N/A"));
    cell_val (dict_get driver "team_name" (PStr "N/A"));
    cell_val (dict_get driver "dob" (PStr "N/A"));
    cell_val (dict_get driver "country_code" (PStr "N/A")) ].

(** [for driver in drivers_data: ...]; this loop touches nothing outside. *)
Fixpoint populate (drivers_data : list dict)
    (table_data : list (list cell)) (row_colors : list Color)
  : result (list (list cell) * list Color) :=
  match drivers_data with
  | [] => Ok (table_data, row_colors)
  | driver :: rest =>
      team_color ← team_color driver;
      populate rest (table_data ++ [table_row driver]) (row_colors ++ [team_color])
  end.

Definition header : list cell :=
  cell_val ∘ PStr <$>
    ["Driver #"; "Full Name"; "Abbreviation"; "Team"; "DOB"; "Nationality"].

Definition col_widths : list Z := [60; 150; 80; 140; 100; 100].

Definition base_style : list style_cmd :=
  [ BACKGROUND (0, 0) (-1, 0) darkred;
    TEXTCOLOR (0, 0) (-1, 0) white;
    ALIGN (0, 0) (-1, -1) "CENTER";
    FONTNAME (0, 0) (-1, 0) "Helvetica-Bold";
    BOTTOMPADDING (0, 0) (-1, 0) 10;
    GRID (0, 0) (-1, -1) 1 black ].

Fixpoint apply_row_colors (rows : list nat) (row_colors : list Color)
    (style : list style_cmd) : result (list style_cmd) :=
  match rows with
  | [] => Ok style
  | i :: rest =>
      c ← list_index row_colors (i - 1);
      apply_row_colors rest row_colors
        (style ++ [BACKGROUND (0, Z.of_nat i) (-1, Z.of_nat i) c])
  end.

(** [create_pdf] up to the call of [doc.build]: the element list. *)
Definition elements (drivers_data : list dict) : M (list flowable) :=
  let elements := [] in
  let logo_path := "f1_logo.png" in
  found ← os_path_exists logo_path;
  let elements := if found : bool then elements ++ [RLImage logo_path 100 50] else elements in
  let title :=
    Paragraph "<b><font size='18' color='darkred'>Formula 1 Drivers Report</font></b>"
              "Title" in
  let elements := elements ++ [title] in
  let elements := elements ++ [Spacer 1 12] in
  let table_data := [header] in
  '(table_data, row_colors) ← lift (populate drivers_data table_data []);
  style ← lift (apply_row_colors (seq 1 (length table_data - 1)) row_colors base_style);
  mret (elements ++ [Table table_data col_widths style]).

(** [create_pdf(drivers_data, filename)] *)
Definition create_pdf (drivers_data : list dict) (filename : string) : M unit :=
  elements ← elements drivers_data;
  doc_build filename elements;;
  print ("✅ PDF '" +:+ filename +:+ "' created successfully!").

End WithCollaborators.

(** The default of the [filename] argument. *)
Definition default_filename : string := "f1_drivers_report.pdf".

End NoHeadshot.

(** ** A concrete instance of the collaborators

    Used for the closed examples below.  The colour constructor follows
    reportlab's [HexColor] on ASCII text; the HTTP client, the image
    library and the layout engine are test doubles. *)

Module Py.

(** Whitespace skipped by [int()] around an ASCII text: tab to carriage
    return, and the space. *)
Definition is_space (c : Ascii.ascii) : bool :=
  let n := Ascii.nat_of_ascii c in
  (((9 <=? n) && (n <=? 13)) || (n =? 32))%nat.

(** The value of a character as a digit, for bases up to 36. *)
Definition digit_value (c : Ascii.ascii) : option Z :=
  let n := Z.of_nat (Ascii.nat_of_ascii c) in
  if (48 <=? n) && (n <=? 57) then Some (n - 48)
  else if (97 <=? n) && (n <=? 122) then Some (n - 87)
  else if (65 <=? n) && (n <=? 90) then Some (n - 55)
  else None.

Fixpoint lstrip (s : string) : string :=
  match s with
  | String c rest => if is_space c then lstrip rest else s
  | EmptyString => EmptyString
  end.

Definition is_char (c : Ascii.ascii) (x : string) : bool :=
  String.eqb (String c EmptyString) x.

(** Digits of [base] with single underscores between them, read
    greedily: the value, the number of digits and the rest of the text;
    nothing when an underscore is doubled or comes last. *)
Fixpoint scan_digits (base : Z) (s : string) (acc : Z) (after_underscore : bool)
    (digits : nat) : option (Z * nat * string) :=
  let stop := if after_underscore then None else Some (acc, digits, s) in
  match s with
  | EmptyString => stop
  | String c rest =>
      if is_char c "_" then
        if after_underscore then None else scan_digits base rest acc true digits
      else
        match digit_value c with
        | Some d =>
            if d <? base then scan_digits base rest (acc * base + d) false (S digits)
            else stop
        | None => stop
        end
  end.

(** A sign, taken off the front. *)
Definition split_sign (s : string) : Z * string :=
  match s with
  | String c rest =>
      if is_char c "-" then (-1, rest)
      else if is_char c "+" then (1, rest)
      else (1, s)
  | EmptyString => (1, s)
  end.

(** The prefix [0x] or [0X] accepted in base 16, and one underscore
    after it. *)
Definition skip_prefix (base : Z) (s : string) : string :=
  match s with
  | String c0 (String c1 rest) =>
      if (base =? 16) && is_char c0 "0" && (is_char c1 "x" || is_char c1 "X") then
        match rest with
        | String c2 rest' => if is_char c2 "_" then rest' else rest
        | EmptyString => rest
        end
      else s
  | _ => s
  end.

Definition starts_with_underscore (s : string) : bool :=
  match s with
  | String c _ => is_char c "_"
  | EmptyString => false
  end.

(** [int(s, base)] for an explicit base 10 or 16. *)
Definition int (s : string) (base : Z) : result Z :=
  let invalid :=
    Raise (Exn ValueError
      ("invalid literal for int() with base " +:+ pretty base +:+ ": '" +:+ s +:+ "'")) in
  let '(sign, body) := split_sign (lstrip s) in
  let body := skip_prefix base body in
  if starts_with_underscore body then invalid
  else
    match scan_digits base body 0 false 0 with
    | Some (n, digits, rest) =>
        if (digits =? 0)%nat then invalid
        else if String.eqb (lstrip rest) "" then Ok (sign * n)
        else invalid
    | None => invalid
    end.

End Py.

(** [reportlab.lib.colors.HexColor(val)] for a [str]: base 16 after a
    leading [#] or [0x], base 10 otherwise; the three low bytes of the
    number are the channels. *)
Definition reportlab_HexColor (val : string) : result Color :=
  let '(val, b) :=
    match val with
    | String c rest =>
        if Py.is_char c "#" then (rest, 16)
        else if String.eqb (lower (String.substring 0 2 val)) "0x"
             then (String.substring 2 (String.length val - 2) val, 16)
             else (val, 10)
    | EmptyString => (val, 10)
    end in
  val ← Py.int val b;
  Ok (mkColor (Z.land (Z.shiftr val 16) 255)
              (Z.land (Z.shiftr val 8) 255)
              (Z.land val 255)).

(** A test double for the network: one good image, one missing, one
    whose bytes are not an image; anything else cannot be reached. *)
Definition fake_requests_get (url : pyval) : result Response :=
  match url with
  | PStr "http://x/1.png" => Ok (mkResponse 200 "image bytes")
  | PStr "http://x/missing.png" => Ok (mkResponse 404 "")
  | PStr "http://x/broken.png" => Ok (mkResponse 200 "not an image")
  | _ => Raise (Exn (OtherException "ConnectionError") "connection failed")
  end.

(** A test double for the image library: an image is its size. *)
Definition fake_Image_open (content : string) : result (Z * Z) :=
  if String.eqb content "image bytes" then Ok (200, 200)
  else Raise (Exn (OtherException "UnidentifiedImageError") "cannot identify image file").

(** The text contains a [/]. *)
Fixpoint has_slash (path : string) : bool :=
  match path with
  | EmptyString => false
  | String c rest => Py.is_char c "/" || has_slash rest
  end.

(** The directory part of a path: the text before its last [/]. *)
Fixpoint parent_dir (path : string) : string :=
  match path with
  | EmptyString => EmptyString
  | String c rest => if has_slash rest then String c (parent_dir rest) else EmptyString
  end.

(** A file can be written where its directory exists (the working
    directory always does) and no directory stands at its own path. *)
Definition writable (path : string) (fs : filesystem) : option exn :=
  match fs !! path with
  | Some Dir => Some (Exn (OtherException "IsADirectoryError") "Is a directory")
  | _ =>
      if String.eqb (parent_dir path) "" then None
      else match fs !! parent_dir path with
           | Some Dir => None
           | _ => Some (Exn (OtherException "FileNotFoundError")
                          "No such file or directory")
           end
  end.

(** A test double for [img.save]: it fails where the file cannot be
    written. *)
Definition fake_Image_save_error (img : Z * Z) (path : string) (fs : filesystem)
  : option exn := writable path fs.

(** A test double for the layout engine: it fails where the output file
    cannot be written, and lays out every document. *)
Definition fake_doc_build_outcome (filename : string) (elements : list flowable)
    (fs : filesystem) : build_outcome :=
  match writable filename fs with
  | Some e => BuildFailed e false
  | None => Built
  end.

#[global] Instance sample : Collaborators := {
  HexColor := reportlab_HexColor;
  requests_get := fake_requests_get;
  PILImage := Z * Z;
  Image_open := fake_Image_open;
  Image_resize := fun _ size => Ok size;
  Image_save_error := fake_Image_save_error;
  doc_build_outcome := fake_doc_build_outcome
}.

(** ** The data source and the scripts

    [fetch_drivers] has the same text in main.py and in noheadshot.py. *)

(** [response.json()]: the decoded body, a list of records, or the
    exception of the decoder.  (A body that decodes to something other
    than a list of objects is outside the model.) *)
Class DataSource := {
  response_json : Response -> result (list dict)
}.

Section Fetch.
Context `{Collaborators} `{DataSource}.

(** [requests.get(url)] *)
Definition requests_get_url (url : string) : M Response := fun fs =>
  (requests_get (PStr url), fs, [ev_get (PStr url)]).

(** [fetch_drivers()] *)
Definition fetch_drivers : M (list dict) :=
  let url := "https://api.openf1.org/v1/drivers" in
  response ← requests_get_url url;
  if negb (status_code response =? 200)
  then lift (Raise (Exn (OtherException "Exception") "Failed to fetch drivers data"))
  else lift (response_json response).

(** The [if __name__ == "__main__":] block of main.py *)
Definition main_py : M unit :=
  drivers_data ← fetch_drivers;
  Main.create_pdf drivers_data Main.default_filename.

(** The [if __name__ == "__main__":] block of noheadshot.py *)
Definition noheadshot_py : M unit :=
  drivers_data ← fetch_drivers;
  NoHeadshot.create_pdf drivers_data NoHeadshot.default_filename.

End Fetch.

(** ** Vocabulary of the statements *)

(** The file system once the cache directory has been ensured. *)
Definition with_cache_dir (fs : filesystem) : filesystem :=
  match fs !! "headshots" with
  | None => <["headshots" := Dir]> fs
  | Some _ => fs
  end.

(** A sequence of events without a network request. *)
Definition no_network (t : list event) : Prop := forall url, ev_get url ∉ t.

(** A sequence of events without anything printed. *)
Definition no_warning (t : list event) : Prop := forall text, ev_print text ∉ t.

(** The text a name field contributes to the full name: the stored value
    as [str()] shows it, or the sentinel when the key is absent. *)
Definition name_part (driver : dict) (key : string) : string :=
  match driver !! key with
  | Some v => py_str v
  | None => "N/A"
  end.

(** The display fields that fill a cell of their own, each with its
    column in the table without headshots (column 1 is the full name). *)
Definition display_columns : list (string * nat) :=
  [("driver_number", 0); ("name_acronym", 2); ("team_name", 3);
   ("dob", 4); ("country_code", 5)]%nat.

(** The team colour is absent (no key, or a value that tests false, such
    as null or the empty string) or spells "none" in any letter case. *)
Definition no_team_colour (driver : dict) : Prop :=
  match driver !! "team_colour" with
  | None => True
  | Some v => truthy v = false \/ exists s, v = PStr s /\ lower s = "none"
  end.

(** The style commands that paint row [i + 1] with the [i]-th colour. *)
Definition row_backgrounds (row_colors : list Color) : list style_cmd :=
  imap (fun i c => BACKGROUND (0, Z.of_nat (S i)) (-1, Z.of_nat (S i)) c) row_colors.

(** Column 0 removed from every row. *)
Definition drop_first_column (data : list (list cell)) : list (list cell) :=
  drop 1 <$> data.

(** The elements placed before the table: the logo when its file exists,
    then the title and the spacer. *)
Definition front (fs : filesystem) : list flowable :=
  (if bool_decide (is_Some (fs !! "f1_logo.png"))
   then [RLImage "f1_logo.png" 100 50] else [])
  ++ [Paragraph "<b><font size='18' color='darkred'>Formula 1 Drivers Report</font></b>"
                "Title";
      Spacer 1 12].

(** A sequence of events in which no document is built. *)
Definition no_document (t : list event) : Prop :=
  forall filename elements, ev_build filename elements ∉ t.

(** What a row shows of its record from column [offset] on: the sentinel
    in the cell of every display field whose key is absent, and as full
    name the two name parts with a space between them. *)
Definition shows_record (offset : nat) (driver : dict) (row : list cell) : Prop :=
  (forall key col,
     (key, col) ∈ display_columns -> driver !! key = None ->
     row !! (offset + col)%nat = Some (cell_val (PStr "N/A")))
  /\ row !! (offset + 1)%nat =
     Some (cell_val (PStr (name_part driver "first_name" +:+ " "
                           +:+ name_part driver "last_name"))).

(** What a row keeps of its record from column [offset] on: the stored
    value of every display field whose key is present, null included. *)
Definition keeps_record (offset : nat) (driver : dict) (row : list cell) : Prop :=
  forall key col v,
    (key, col) ∈ display_columns -> driver !! key = Some v ->
    row !! (offset + col)%nat = Some (cell_val v).

(** The events of a call end with the building of a document whose last
    element is the given table, followed by one printed line. *)
Definition builds_table (t : list event) (filename : string)
    (data : list (list cell)) (widths : list Z) (style : list style_cmd) : Prop :=
  exists before pre message,
    t = before ++ [ev_build filename (pre ++ [Table data widths style]); ev_print message].

(** The style command that paints the row of the [i]-th record. *)
Definition row_background (i : nat) (c : Color) : style_cmd :=
  BACKGROUND (0, Z.of_nat (S i)) (-1, Z.of_nat (S i)) c.

(** A colour text that is well-formed hex: six hexadecimal digits. *)
Definition is_hex_digit (c : Ascii.ascii) : bool :=
  match Py.digit_value c with
  | Some d => d <? 16
  | None => false
  end.

Definition valid_hex (s : string) : bool :=
  (String.length s =? 6)%nat && forallb is_hex_digit (String.list_ascii_of_string s).

(** ** Records used in the examples *)

(** The record of the first example scenario. *)
Definition verstappen : dict :=
  <["driver_number" := PInt 1]> (
  <["first_name" := PStr "Max"]> (
  <["last_name" := PStr "Verstappen"]> (
  <["name_acronym" := PStr "VER"]> (
  <["team_name" := PStr "Red Bull"]> (
  <["team_colour" := PStr "3671C6"]> (
  <["dob" := PStr "1997-09-30"]> (
  <["country_code" := PStr "NED"]> (
  <["headshot_url" := PStr "http://x/1.png"]> ∅)))))))).

(** A record with a last name and nothing else. *)
Definition only_last_name : dict := {[ "last_name" := PStr "Norris" ]}.

(** ** Vocabulary of the further properties *)

(** The URLs requested in a sequence of events, in order. *)
Definition requests (t : list event) : list pyval :=
  omap (fun ev => match ev with ev_get url => Some url | _ => None end) t.

(** The record has a headshot URL that tests true. *)
Definition has_url (driver : dict) : bool := truthy (Main.headshot_url driver).

(** The path at which the headshot of a record is cached. *)
Definition cache_path (driver : dict) : string :=
  Main.file_path (Main.driver_id driver).

(** Collaborators for end-to-end examples: the data source answers with
    a body that decodes to two records; every other URL is answered as
    by [sample]. *)
Definition api_requests_get (url : pyval) : result Response :=
  match url with
  | PStr "https://api.openf1.org/v1/drivers" => Ok (mkResponse 200 "two drivers")
  | _ => fake_requests_get url
  end.

Definition api_sample : Collaborators := {|
  HexColor := reportlab_HexColor;
  requests_get := api_requests_get;
  PILImage := Z * Z;
  Image_open := fake_Image_open;
  Image_resize := fun _ size => Ok size;
  Image_save_error := fake_Image_save_error;
  doc_build_outcome := fake_doc_build_outcome
|}.

Definition fake_response_json (response : Response) : result (list dict) :=
  if String.eqb (content response) "two drivers" then Ok [verstappen; only_last_name]
  else Raise (Exn (OtherException "JSONDecodeError") "Expecting value").

#[global] Instance sample_json : DataSource := {
  response_json := fake_response_json
}.

(** The record has a URL and its headshot is not cached in [fs]: the
    only records for which a run can go to the network. *)
Definition needs_fetch (fs : filesystem) (driver : dict) : bool :=
  has_url driver && negb (bool_decide (is_Some (fs !! cache_path driver))).

(** An event of the headshot cache: ensuring the directory, a request,
    a save, or an existence test other than the one for the logo. *)
Definition cache_event (ev : event) : Prop :=
  match ev with
  | ev_makedirs _ | ev_get _ | ev_save _ => True
  | ev_exists path => path ≠ "f1_logo.png"
  | ev_print _ | ev_build _ _ => False
  end.

(** The first record with a team colour that is not hex. *)
Definition verstappen_bad_colour : dict :=
  <["team_colour" := PStr "ZZZZZZ"]> verstappen.


(** A file system with one file that is none of the program's. *)
Definition with_notes : filesystem := {[ "notes.txt" := File ]}.

(** The exception of reportlab's colour constructor on ["#ZZZZZZ"]. *)
Definition not_hex : exn :=
  Exn ValueError "invalid literal for int() with base 16: 'ZZZZZZ'".

(** * Properties *)

(** ** Values and dictionaries *)

Lemma dict_get_absent (d : dict) key default :
  d !! key = None -> dict_get d key default = default.
Proof. intros Hk. unfold dict_get. by rewrite Hk. Qed.

Lemma dict_get_present (d : dict) key default v :
  d !! key = Some v -> dict_get d key default = v.
Proof. intros Hk. unfold dict_get. by rewrite Hk. Qed.

Lemma truthy_PStr s : truthy (PStr s) = true <-> s ≠ "".
Proof.
  simpl. destruct (String.eqb_spec s "") as [->|Hne]; simpl; split; congruence.
Qed.

(** ** The monad *)

Lemma bind_run {A B} (m : M A) (k : A -> M B) fs :
  (m ≫= k) fs =
  match m fs with
  | (Ok a, fs1, t1) => match k a fs1 with (r, fs2, t2) => (r, fs2, t1 ++ t2) end
  | (Raise e, fs1, t1) => (Raise e, fs1, t1)
  end.
Proof. reflexivity. Qed.

Lemma bind_ok_inv {A B} (m : M A) (k : A -> M B) fs b fs2 t :
  (m ≫= k) fs = (Ok b, fs2, t) ->
  exists a fs1 t1 t2,
    m fs = (Ok a, fs1, t1) /\ k a fs1 = (Ok b, fs2, t2) /\ t = t1 ++ t2.
Proof.
  rewrite bind_run. destruct (m fs) as [[[a|e] fs1] t1]; [|discriminate].
  destruct (k a fs1) as [[r fs2'] t2] eqn:Hk. intros [= -> -> <-].
  by exists a, fs1, t1, t2.
Qed.

Lemma lift_ok_inv {A} (r : result A) fs a fs' t :
  lift r fs = (Ok a, fs', t) -> r = Ok a /\ fs' = fs /\ t = [].
Proof. unfold lift. by intros [= -> -> <-]. Qed.

(** The path of a cached headshot is never the cache directory itself. *)
Lemma file_path_not_dir driver_id : Main.file_path driver_id ≠ "headshots".
Proof. discriminate. Qed.

(** An event of another kind is not in a given explicit trace. *)
Ltac absent_from_trace Hin :=
  repeat (apply elem_of_cons in Hin as [Hin|Hin]; [discriminate|]);
  by apply elem_of_nil in Hin.

(** ** The headshot cache *)

Section HeadshotCache.
Context `{Collaborators}.

Lemma download_run image_url driver_id fs :
  truthy image_url = true ->
  fs !! "headshots" ≠ Some File ->
  Main.download_headshot image_url driver_id fs =
  let file_path := Main.file_path driver_id in
  let fs1 := with_cache_dir fs in
  let before := [ev_makedirs "headshots"; ev_exists file_path] in
  if bool_decide (is_Some (fs !! file_path)) then (Ok (Some file_path), fs1, before)
  else
    match requests_get image_url with
    | Raise e =>
        (Ok None, fs1, before ++ [ev_get image_url; ev_print (Main.warning driver_id e)])
    | Ok response =>
        if status_code response =? 200 then
          match img ← Image_open (content response); Image_resize img (50, 50) with
          | Raise e =>
              (Ok None, fs1,
               before ++ [ev_get image_url; ev_print (Main.warning driver_id e)])
          | Ok img =>
              match Image_save_error img file_path fs1 with
              | Some e =>
                  (Ok None, fs1,
                   before ++ [ev_get image_url; ev_save file_path;
                              ev_print (Main.warning driver_id e)])
              | None =>
                  (Ok (Some file_path), <[file_path := File]> fs1,
                   before ++ [ev_get image_url; ev_save file_path])
              end
          end
        else (Ok None, fs1, before ++ [ev_get image_url])
    end.
Proof.
  intros Hurl Hdir. unfold Main.download_headshot. rewrite Hurl. cbn [negb].
  assert (Hex : forall p, p = Main.file_path driver_id ->
            with_cache_dir fs !! p = None <-> fs !! p = None).
  { intros p ->. unfold with_cache_dir. destruct (fs !! "headshots"); [done|].
    by rewrite lookup_insert_ne; [|apply not_eq_sym, file_path_not_dir]. }
  assert (Hbd : bool_decide (is_Some (with_cache_dir fs !! Main.file_path driver_id))
                = bool_decide (is_Some (fs !! Main.file_path driver_id))).
  { apply bool_decide_ext. rewrite <- !not_eq_None_Some. by rewrite Hex. }
  assert (Hmk : os_makedirs "headshots" fs = (Ok tt, with_cache_dir fs, [ev_makedirs "headshots"])).
  { unfold os_makedirs, with_cache_dir. by destruct (fs !! "headshots") as [[|]|]. }
  rewrite bind_run, Hmk, bind_run. unfold os_path_exists at 1. rewrite Hbd.
  destruct (bool_decide (is_Some (fs !! Main.file_path driver_id))); [done|].
  unfold try_except. rewrite bind_run. unfold Main.get at 1.
  destruct (requests_get image_url) as [response|e]; [|done].
  destruct (status_code response =? 200); [|done].
  rewrite bind_run. unfold lift at 1.
  destruct (Image_open (content response)) as [img|e]; [|done].
  rewrite bind_run. unfold lift at 1. simpl mbind.
  destruct (Image_resize img (50, 50)) as [img'|e]; [|done].
  rewrite bind_run. unfold Main.save.
  by destruct (Image_save_error img' (Main.file_path driver_id) (with_cache_dir fs)).
Qed.

(** When [headshots] is a regular file, ensuring the cache directory
    raises, outside the [try]. *)
Lemma download_makedirs_raises image_url driver_id fs :
  truthy image_url = true ->
  fs !! "headshots" = Some File ->
  Main.download_headshot image_url driver_id fs =
  (Raise (Exn FileExistsError "[Errno 17] File exists: 'headshots'"), fs,
   [ev_makedirs "headshots"]).
Proof.
  intros Hurl Hdir. unfold Main.download_headshot. rewrite Hurl. cbn [negb].
  rewrite bind_run. unfold os_makedirs at 1. by rewrite Hdir.
Qed.

Lemma with_cache_dir_lookup fs : with_cache_dir fs !! "headshots" ≠ Some File ->
  fs !! "headshots" ≠ Some File.
Proof.
  unfold with_cache_dir. destruct (fs !! "headshots") eqn:Hd; [by rewrite Hd|done].
Qed.

Lemma with_cache_dir_is_dir fs :
  fs !! "headshots" ≠ Some File -> with_cache_dir fs !! "headshots" = Some Dir.
Proof.
  unfold with_cache_dir. destruct (fs !! "headshots") as [[|]|] eqn:Hd; try done.
  intros _. apply lookup_insert_eq.
Qed.

Lemma with_cache_dir_id fs :
  fs !! "headshots" = Some Dir -> with_cache_dir fs = fs.
Proof. unfold with_cache_dir. by intros ->. Qed.

Lemma with_cache_dir_file fs driver_id :
  with_cache_dir fs !! Main.file_path driver_id = fs !! Main.file_path driver_id.
Proof.
  unfold with_cache_dir. destruct (fs !! "headshots"); [done|].
  apply lookup_insert_ne, not_eq_sym, file_path_not_dir.
Qed.

(** A call that returns a path returns the path of the id, and leaves
    the cache directory and the file in place. *)
Lemma download_returns_path image_url driver_id fs path fs1 t1 :
  Main.download_headshot image_url driver_id fs = (Ok (Some path), fs1, t1) ->
  path = Main.file_path driver_id /\
  fs1 !! "headshots" = Some Dir /\
  is_Some (fs1 !! path).
Proof.
  destruct (truthy image_url) eqn:Hurl.
  2:{ unfold Main.download_headshot. rewrite Hurl. discriminate. }
  assert (fs !! "headshots" = Some File \/ fs !! "headshots" ≠ Some File) as [Hf|Hf].
  { destruct (fs !! "headshots") as [[|]|]; auto. }
  { rewrite download_makedirs_raises by done. discriminate. }
  rewrite download_run by done. cbv zeta.
  pose proof (with_cache_dir_is_dir fs Hf) as Hd.
  case_bool_decide as Hex.
  { intros [= <- <- <-]. by rewrite with_cache_dir_file. }
  destruct (requests_get image_url) as [response|e]; [|discriminate].
  destruct (status_code response =? 200); [|discriminate].
  destruct (_ ≫= _) as [img|e]; [|discriminate].
  destruct (Image_save_error _ _ _); [discriminate|].
  intros [= <- <- <-]. split; [done|]. split.
  - by rewrite lookup_insert_ne; [|apply file_path_not_dir].
  - rewrite lookup_insert_eq. by eexists.
Qed.

Lemma no_network_hit path : no_network [ev_makedirs "headshots"; ev_exists path].
Proof.
  intros url Hin.
  absent_from_trace Hin.
Qed.

(** C4. With an absent or empty image URL (any value that tests false:
    [None], the empty string), [download_headshot] returns [None] at
    once: the file system is unchanged and the call has no event at all,
    so neither the file system nor the network is touched. *)
Theorem download_without_url image_url driver_id fs :
  truthy image_url = false ->
  Main.download_headshot image_url driver_id fs = (Ok None, fs, []).
Proof. intros Hurl. unfold Main.download_headshot. by rewrite Hurl. Qed.

(** C3, amended.  For a non-empty URL: when the cache directory and the
    file of the id exist, the call returns the path of the id, leaves the
    file system as it is, and only ensures the directory and tests the
    file; and after a call that returned a path, a second call for the
    same id, with any non-empty URL, returns the same path, changes
    nothing and makes no network request. *)
Theorem download_cached image_url driver_id fs :
  truthy image_url = true ->
  (fs !! "headshots" = Some Dir ->
   is_Some (fs !! Main.file_path driver_id) ->
   Main.download_headshot image_url driver_id fs =
   (Ok (Some (Main.file_path driver_id)), fs,
    [ev_makedirs "headshots"; ev_exists (Main.file_path driver_id)]))
  /\
  (forall path fs1 t1 url2,
     Main.download_headshot image_url driver_id fs = (Ok (Some path), fs1, t1) ->
     truthy url2 = true ->
     Main.download_headshot url2 driver_id fs1 =
     (Ok (Some path), fs1, [ev_makedirs "headshots"; ev_exists path])
     /\ no_network [ev_makedirs "headshots"; ev_exists path]).
Proof.
  intros Hurl.
  assert (Hhit : forall url fs0, truthy url = true ->
            fs0 !! "headshots" = Some Dir ->
            is_Some (fs0 !! Main.file_path driver_id) ->
            Main.download_headshot url driver_id fs0 =
            (Ok (Some (Main.file_path driver_id)), fs0,
             [ev_makedirs "headshots"; ev_exists (Main.file_path driver_id)])).
  { intros url fs0 Hu Hd Hex. rewrite download_run by (done || congruence).
    cbv zeta. rewrite bool_decide_eq_true_2 by done.
    by rewrite with_cache_dir_id. }
  split; [by apply Hhit|].
  intros path fs1 t1 url2 Hfirst Hurl2.
  apply download_returns_path in Hfirst as (-> & Hd & Hex).
  split; [by apply Hhit | apply no_network_hit].
Qed.

(** C5, amended.  For a non-empty URL, no cached file for the id, and a
    cache directory that can be ensured: on a response whose status is
    not 200 the call returns [None] without printing anything; when the
    request raises, or the bytes of a 200 response cannot be opened or
    resized, the call prints one warning and returns [None].  In each
    case nothing is raised, there is still no file at the path of the
    id, and a [None] result becomes the ["N/A"] cell. *)
Theorem download_failure image_url driver_id fs :
  truthy image_url = true ->
  fs !! Main.file_path driver_id = None ->
  fs !! "headshots" ≠ Some File ->
  let file_path := Main.file_path driver_id in
  let before := [ev_makedirs "headshots"; ev_exists file_path; ev_get image_url] in
  (forall response,
     requests_get image_url = Ok response -> status_code response ≠ 200 ->
     Main.download_headshot image_url driver_id fs =
     (Ok None, with_cache_dir fs, before)
     /\ no_warning before)
  /\
  (forall e,
     requests_get image_url = Raise e ->
     Main.download_headshot image_url driver_id fs =
     (Ok None, with_cache_dir fs, before ++ [ev_print (Main.warning driver_id e)]))
  /\
  (forall response e,
     requests_get image_url = Ok response -> status_code response = 200 ->
     (img ← Image_open (content response); Image_resize img (50, 50)) = Raise e ->
     Main.download_headshot image_url driver_id fs =
     (Ok None, with_cache_dir fs, before ++ [ev_print (Main.warning driver_id e)]))
  /\ with_cache_dir fs !! file_path = None
  /\ Main.image None = cell_val (PStr "N/A").
Proof.
  intros Hurl Hfile Hdir file_path before. subst file_path before.
  assert (Hrun := download_run image_url driver_id fs Hurl Hdir).
  cbv zeta in Hrun. rewrite bool_decide_eq_false_2 in Hrun
    by (rewrite Hfile; by intros [? ?]).
  split; [|split; [|split; [|split]]].
  - intros response Hr Hs. split.
    + rewrite Hrun, Hr. by apply Z.eqb_neq in Hs as ->.
    + intros text Hin.
      absent_from_trace Hin.
  - intros e He. by rewrite Hrun, He.
  - intros response e Hr Hs He. rewrite Hrun, Hr, Hs. simpl Z.eqb. cbv iota.
    by rewrite He.
  - by rewrite with_cache_dir_file.
  - done.
Qed.

End HeadshotCache.

(** ** Rows, colours and the table *)

Section Rows.
Context `{Collaborators}.

(** The two files resolve the colour and paint the rows with the same
    code. *)
Lemma team_color_same driver : Main.team_color driver = NoHeadshot.team_color driver.
Proof. reflexivity. Qed.

Lemma apply_row_colors_same rows row_colors style :
  Main.apply_row_colors rows row_colors style
  = NoHeadshot.apply_row_colors rows row_colors style.
Proof. reflexivity. Qed.

Lemma base_style_same : Main.base_style = NoHeadshot.base_style.
Proof. reflexivity. Qed.

(** *** Colour resolution *)

Lemma team_color_default driver :
  no_team_colour driver -> NoHeadshot.team_color driver = HexColor "#CCCCCC".
Proof.
  unfold no_team_colour, NoHeadshot.team_color, dict_get.
  destruct (driver !! "team_colour") as [v|]; [|done].
  intros [Hv|(s & -> & Hs)].
  - by rewrite Hv.
  - destruct (truthy (PStr s)); [|done]. simpl. by rewrite Hs.
Qed.

Lemma team_color_given driver s :
  driver !! "team_colour" = Some (PStr s) -> s ≠ "" -> lower s ≠ "none" ->
  NoHeadshot.team_color driver = HexColor ("#" +:+ s).
Proof.
  intros Hk Hs Hl. unfold NoHeadshot.team_color. rewrite (dict_get_present _ _ _ _ Hk).
  apply truthy_PStr in Hs. rewrite Hs. simpl.
  by apply String.eqb_neq in Hl as ->.
Qed.

(** A value that tests true and is not a string has no [lower]. *)
Lemma team_color_not_str driver v :
  driver !! "team_colour" = Some v -> truthy v = true -> (forall s, v ≠ PStr s) ->
  NoHeadshot.team_color driver =
  Raise (Exn AttributeError ("'" +:+ type_name v +:+ "' object has no attribute 'lower'")).
Proof.
  intros Hk Hv Hs. unfold NoHeadshot.team_color. rewrite (dict_get_present _ _ _ _ Hk), Hv.
  destruct v; try done. by destruct (Hs s).
Qed.

(** *** The row loop of noheadshot.py *)

Lemma nh_populate_ok drivers_data : forall table_data row_colors table_data' row_colors',
  NoHeadshot.populate drivers_data table_data row_colors = Ok (table_data', row_colors') ->
  exists cs,
    Forall2 (fun d c => NoHeadshot.team_color d = Ok c) drivers_data cs /\
    table_data' = table_data ++ (NoHeadshot.table_row <$> drivers_data) /\
    row_colors' = row_colors ++ cs.
Proof.
  induction drivers_data as [|d ds IH]; intros td rc td' rc'; simpl.
  - intros [= <- <-]. exists []. by rewrite !app_nil_r.
  - destruct (NoHeadshot.team_color d) as [c|e] eqn:Hc; [|discriminate]. simpl.
    intros (cs & Hcs & -> & ->)%IH. exists (c :: cs).
    rewrite <- !app_assoc. split; [by constructor|done].
Qed.

Lemma nh_populate_total drivers_data : forall cs table_data row_colors,
  Forall2 (fun d c => NoHeadshot.team_color d = Ok c) drivers_data cs ->
  NoHeadshot.populate drivers_data table_data row_colors =
  Ok (table_data ++ (NoHeadshot.table_row <$> drivers_data), row_colors ++ cs).
Proof.
  induction drivers_data as [|d ds IH]; intros cs td rc Hcs.
  - apply Forall2_nil_inv_l in Hcs as ->. simpl. by rewrite !app_nil_r.
  - apply Forall2_cons_inv_l in Hcs as (c & cs' & Hc & Hcs & ->).
    simpl. rewrite Hc. simpl. rewrite (IH cs') by done. by rewrite <- !app_assoc.
Qed.

(** The loop raises exactly the exception of the first record whose
    colour cannot be built. *)
Lemma nh_populate_raises before driver after e : forall table_data row_colors,
  Forall (fun d => exists c, NoHeadshot.team_color d = Ok c) before ->
  NoHeadshot.team_color driver = Raise e ->
  NoHeadshot.populate (before ++ driver :: after) table_data row_colors = Raise e.
Proof.
  induction before as [|d ds IH]; intros td rc Hok He; simpl.
  - by rewrite He.
  - apply Forall_cons in Hok as [[c Hc] Hok]. rewrite Hc. simpl. by apply IH.
Qed.

(** *** Painting the rows *)

Lemma apply_row_colors_ok cs2 : forall cs1 style,
  NoHeadshot.apply_row_colors (seq (S (length cs1)) (length cs2)) (cs1 ++ cs2) style =
  Ok (style ++
      imap (fun i c => BACKGROUND (0, Z.of_nat (S (length cs1 + i)))
                                  (-1, Z.of_nat (S (length cs1 + i))) c) cs2).
Proof.
  induction cs2 as [|c cs2 IH]; intros cs1 style.
  - simpl. by rewrite app_nil_r.
  - cbn [length seq NoHeadshot.apply_row_colors].
    replace (S (length cs1) - 1)%nat with (length cs1 + 0)%nat by lia.
    unfold list_index. rewrite (list_lookup_middle cs1 cs2 c (length cs1 + 0)) by lia.
    cbn [mbind result_bind].
    specialize (IH (cs1 ++ [c]) (style ++ [BACKGROUND (0, Z.of_nat (S (length cs1)))
                                             (-1, Z.of_nat (S (length cs1))) c])).
    rewrite length_app, <- !app_assoc in IH. cbn [length app] in IH.
    rewrite Nat.add_1_r in IH. rewrite IH. f_equal. f_equal.
    cbn [imap]. rewrite Nat.add_0_r. f_equal.
    apply imap_ext. intros i x _. cbn [compose].
    by rewrite Nat.add_succ_r.
Qed.

Lemma apply_row_colors_all row_colors :
  NoHeadshot.apply_row_colors (seq 1 (length row_colors)) row_colors NoHeadshot.base_style =
  Ok (NoHeadshot.base_style ++ row_backgrounds row_colors).
Proof. apply (apply_row_colors_ok row_colors []). Qed.

(** *** The element list of noheadshot.py *)

Lemma nh_elements_run drivers_data fs :
  NoHeadshot.elements drivers_data fs =
  match NoHeadshot.populate drivers_data [NoHeadshot.header] [] with
  | Ok (table_data, row_colors) =>
      match NoHeadshot.apply_row_colors (seq 1 (length table_data - 1)) row_colors
              NoHeadshot.base_style with
      | Ok style =>
          (Ok (front fs ++ [Table table_data NoHeadshot.col_widths style]), fs,
           [ev_exists "f1_logo.png"])
      | Raise e => (Raise e, fs, [ev_exists "f1_logo.png"])
      end
  | Raise e => (Raise e, fs, [ev_exists "f1_logo.png"])
  end.
Proof.
  unfold NoHeadshot.elements. rewrite bind_run. unfold os_path_exists at 1.
  rewrite bind_run. unfold lift at 1.
  destruct (NoHeadshot.populate _ _ _) as [[td rc]|e]; [|done].
  rewrite bind_run. unfold lift at 1.
  destruct (NoHeadshot.apply_row_colors _ _ _) as [style|e]; [|done].
  unfold front. by destruct (bool_decide _).
Qed.

Lemma nh_elements_total drivers_data cs fs :
  Forall2 (fun d c => NoHeadshot.team_color d = Ok c) drivers_data cs ->
  NoHeadshot.elements drivers_data fs =
  (Ok (front fs ++
       [Table (NoHeadshot.header :: (NoHeadshot.table_row <$> drivers_data))
              NoHeadshot.col_widths
              (NoHeadshot.base_style ++ row_backgrounds cs)]),
   fs, [ev_exists "f1_logo.png"]).
Proof.
  intros Hcs. rewrite nh_elements_run, (nh_populate_total _ cs) by done.
  assert (Hlen : (length ([NoHeadshot.header] ++ (NoHeadshot.table_row <$> drivers_data)) - 1
                  = length cs)%nat).
  { cbn [app length]. rewrite length_fmap, (Forall2_length _ _ _ Hcs). lia. }
  by rewrite Hlen, apply_row_colors_all.
Qed.

Lemma nh_elements_ok_inv drivers_data fs els fs' t :
  NoHeadshot.elements drivers_data fs = (Ok els, fs', t) ->
  exists cs,
    Forall2 (fun d c => NoHeadshot.team_color d = Ok c) drivers_data cs /\
    els = front fs ++
          [Table (NoHeadshot.header :: (NoHeadshot.table_row <$> drivers_data))
                 NoHeadshot.col_widths
                 (NoHeadshot.base_style ++ row_backgrounds cs)] /\
    fs' = fs /\ t = [ev_exists "f1_logo.png"].
Proof.
  intros Hrun.
  destruct (NoHeadshot.populate drivers_data [NoHeadshot.header] []) as [[td rc]|e] eqn:Hp.
  - apply nh_populate_ok in Hp as (cs & Hcs & -> & ->). exists cs.
    rewrite (nh_elements_total _ cs) in Hrun by done.
    by injection Hrun as <- <- <-.
  - rewrite nh_elements_run, Hp in Hrun. discriminate.
Qed.

(** *** The row loop of main.py *)

(** The headshot step does not raise when the cache directory can be
    ensured, and leaves it so. *)
Lemma main_headshot_total driver fs :
  fs !! "headshots" ≠ Some File ->
  exists h fs' t,
    Main.headshot driver fs = (Ok h, fs', t) /\ fs' !! "headshots" ≠ Some File /\
    no_document t.
Proof.
  intros Hdir. unfold Main.headshot.
  assert (Hnd : forall t : list event,
            (forall f els, Forall (fun ev => ev ≠ ev_build f els) t) -> no_document t).
  { intros t Ht f els Hin. specialize (Ht f els).
    rewrite Forall_forall in Ht. by apply (Ht _ Hin). }
  destruct (truthy (Main.headshot_url driver)) eqn:Hurl.
  2:{ exists None, fs, []. split; [done|]. split; [done|]. intros f els Hin.
      by apply elem_of_nil in Hin. }
  rewrite download_run by done. cbv zeta.
  pose proof (with_cache_dir_is_dir fs Hdir) as Hd.
  assert (Hd' : with_cache_dir fs !! "headshots" ≠ Some File) by congruence.
  assert (Hd'' : <[Main.file_path (Main.driver_id driver) := File]> (with_cache_dir fs)
                   !! "headshots" ≠ Some File).
  { rewrite lookup_insert_ne by apply file_path_not_dir. done. }
  repeat match goal with
  | |- context [if ?b then _ else _] => destruct b
  | |- context [match ?r with Ok _ => _ | Raise _ => _ end] => destruct r
  | |- context [match ?r with Some _ => _ | None => _ end] => destruct r
  end;
  (do 3 eexists; split; [reflexivity|]; split; [done|];
   apply Hnd; intros f els; repeat constructor; discriminate).
Qed.

Lemma main_populate_ok_inv drivers_data :
  forall table_data row_colors fs table_data' row_colors' fs' t,
  Main.populate drivers_data table_data row_colors fs
    = (Ok (table_data', row_colors'), fs', t) ->
  exists hs cs,
    Forall2 (fun d c => Main.team_color d = Ok c) drivers_data cs /\
    length hs = length drivers_data /\
    table_data' =
      table_data ++ zip_with (fun h d => Main.table_row (Main.image h) d) hs drivers_data /\
    row_colors' = row_colors ++ cs.
Proof.
  induction drivers_data as [|d ds IH]; intros td rc fs td' rc' fs' t; simpl.
  - intros [= <- <- <- <-]. exists [], []. by rewrite !app_nil_r.
  - intros (h & fs1 & t1 & t2 & Hh & Hrest & ->)%bind_ok_inv.
    apply bind_ok_inv in Hrest as (c & fs2 & t3 & t4 & Hc & Hrest & ->).
    apply lift_ok_inv in Hc as (Hc & -> & ->).
    apply IH in Hrest as (hs & cs & Hcs & Hlen & -> & ->).
    exists (h :: hs), (c :: cs). rewrite <- !app_assoc. simpl.
    split; [by constructor|]. split; [by rewrite Hlen|done].
Qed.

Lemma main_populate_total drivers_data : forall cs table_data row_colors fs,
  fs !! "headshots" ≠ Some File ->
  Forall2 (fun d c => Main.team_color d = Ok c) drivers_data cs ->
  exists hs fs' t,
    Main.populate drivers_data table_data row_colors fs =
    (Ok (table_data ++ zip_with (fun h d => Main.table_row (Main.image h) d) hs drivers_data,
         row_colors ++ cs), fs', t) /\
    length hs = length drivers_data /\ no_document t.
Proof.
  induction drivers_data as [|d ds IH]; intros cs td rc fs Hdir Hcs.
  - apply Forall2_nil_inv_l in Hcs as ->. exists [], fs, []. simpl.
    rewrite !app_nil_r. split; [done|]. split; [done|]. intros f els Hin.
    by apply elem_of_nil in Hin.
  - apply Forall2_cons_inv_l in Hcs as (c & cs' & Hc & Hcs & ->).
    destruct (main_headshot_total d fs Hdir) as (h & fs1 & t1 & Hh & Hdir1 & Hnd1).
    destruct (IH cs' (td ++ [Main.table_row (Main.image h) d]) (rc ++ [c]) fs1 Hdir1 Hcs)
      as (hs & fs2 & t2 & Hrest & Hlen & Hnd2).
    exists (h :: hs), fs2, (t1 ++ t2). cbn [Main.populate].
    rewrite bind_run, Hh, bind_run. unfold lift at 1. rewrite Hc, Hrest.
    rewrite <- !app_assoc. simpl. split; [done|]. split; [by rewrite Hlen|].
    intros f els [Hin|Hin]%elem_of_app; [by apply (Hnd1 f els)|by apply (Hnd2 f els)].
Qed.

Lemma main_populate_raises before driver after e : forall table_data row_colors fs,
  fs !! "headshots" ≠ Some File ->
  Forall (fun d => exists c, Main.team_color d = Ok c) before ->
  Main.team_color driver = Raise e ->
  exists fs' t,
    Main.populate (before ++ driver :: after) table_data row_colors fs = (Raise e, fs', t)
    /\ no_document t.
Proof.
  induction before as [|d ds IH]; intros td rc fs Hdir Hok He.
  - destruct (main_headshot_total driver fs Hdir) as (h & fs1 & t1 & Hh & _ & Hnd).
    exists fs1, t1. cbn [app Main.populate].
    rewrite bind_run, Hh, bind_run. unfold lift at 1. rewrite He.
    by rewrite app_nil_r.
  - apply Forall_cons in Hok as [[c Hc] Hok].
    destruct (main_headshot_total d fs Hdir) as (h & fs1 & t1 & Hh & Hdir1 & Hnd1).
    destruct (IH (td ++ [Main.table_row (Main.image h) d]) (rc ++ [c]) fs1 Hdir1 Hok He)
      as (fs2 & t2 & Hrest & Hnd2).
    exists fs2, (t1 ++ t2). cbn [app Main.populate].
    rewrite bind_run, Hh, bind_run. unfold lift at 1. rewrite Hc, Hrest.
    split; [done|].
    intros f els [Hin|Hin]%elem_of_app; [by apply (Hnd1 f els)|by apply (Hnd2 f els)].
Qed.

(** *** The element list of main.py *)

Lemma main_elements_ok_inv drivers_data fs els fs' t :
  Main.elements drivers_data fs = (Ok els, fs', t) ->
  exists hs cs,
    Forall2 (fun d c => Main.team_color d = Ok c) drivers_data cs /\
    length hs = length drivers_data /\
    els = front fs ++
          [Table (Main.header ::
                  zip_with (fun h d => Main.table_row (Main.image h) d) hs drivers_data)
                 Main.col_widths
                 (Main.base_style ++ row_backgrounds cs)].
Proof.
  unfold Main.elements.
  intros (found & fs1 & t1 & t2 & Hlogo & Hrest & ->)%bind_ok_inv.
  injection Hlogo as <- <- <-.
  apply bind_ok_inv in Hrest as ([td rc] & fs2 & t3 & t4 & Hpop & Hrest & ->).
  apply main_populate_ok_inv in Hpop as (hs & cs & Hcs & Hlen & -> & ->).
  apply bind_ok_inv in Hrest as (style & fs3 & t5 & t6 & Hstyle & Hret & ->).
  apply lift_ok_inv in Hstyle as (Hstyle & -> & ->).
  injection Hret as <- <- <-.
  exists hs, cs. split; [done|]. split; [done|].
  assert (Hn : (length ([Main.header] ++
                  zip_with (fun h d => Main.table_row (Main.image h) d) hs drivers_data) - 1
                = length cs)%nat).
  { cbn [app length]. rewrite length_zip_with, Hlen, (Forall2_length _ _ _ Hcs). lia. }
  rewrite Hn in Hstyle. cbn [app] in Hstyle.
  rewrite apply_row_colors_same, base_style_same, apply_row_colors_all in Hstyle.
  injection Hstyle as <-. unfold front. by destruct (bool_decide _).
Qed.

Lemma main_elements_total drivers_data cs fs :
  fs !! "headshots" ≠ Some File ->
  Forall2 (fun d c => Main.team_color d = Ok c) drivers_data cs ->
  exists hs fs' t,
    Main.elements drivers_data fs =
    (Ok (front fs ++
         [Table (Main.header ::
                 zip_with (fun h d => Main.table_row (Main.image h) d) hs drivers_data)
                Main.col_widths
                (Main.base_style ++ row_backgrounds cs)]), fs', t)
    /\ length hs = length drivers_data /\ no_document t.
Proof.
  intros Hdir Hcs.
  destruct (main_populate_total drivers_data cs [Main.header] [] fs Hdir Hcs)
    as (hs & fs' & t & Hpop & Hlen & Hnd).
  exists hs, fs', ([ev_exists "f1_logo.png"] ++ t ++ []).
  split; [|split; [done|]].
  - unfold Main.elements. rewrite bind_run. unfold os_path_exists at 1.
    rewrite bind_run, Hpop, bind_run. unfold lift at 1.
    assert (Hn : (length ([Main.header] ++
                    zip_with (fun h d => Main.table_row (Main.image h) d) hs drivers_data) - 1
                  = length cs)%nat).
    { cbn [app length]. rewrite length_zip_with, Hlen, (Forall2_length _ _ _ Hcs). lia. }
    rewrite Hn. cbn [app].
    rewrite apply_row_colors_same, base_style_same, apply_row_colors_all.
    unfold front. by destruct (bool_decide _).
  - rewrite app_nil_r. intros f els [Hin|Hin]%elem_of_cons; [discriminate|].
    by apply (Hnd f els).
Qed.

(** *** Rows *)

Lemma table_row_prepends image driver :
  Main.table_row image driver = image :: NoHeadshot.table_row driver.
Proof. reflexivity. Qed.

Lemma display_columns_cases (P : string -> nat -> Prop) :
  P "driver_number" 0%nat -> P "name_acronym" 2%nat -> P "team_name" 3%nat ->
  P "dob" 4%nat -> P "country_code" 5%nat ->
  forall key col, (key, col) ∈ display_columns -> P key col.
Proof.
  intros H0 H2 H3 H4 H5 key col Hin. unfold display_columns in Hin.
  repeat (apply elem_of_cons in Hin as [[= -> ->]|Hin]; [assumption|]).
  by apply elem_of_nil in Hin.
Qed.

Lemma nh_row_shows_record driver : shows_record 0 driver (NoHeadshot.table_row driver).
Proof.
  split.
  - apply (display_columns_cases
      (fun key col => driver !! key = None ->
         NoHeadshot.table_row driver !! (0 + col)%nat = Some (cell_val (PStr "N/A"))));
      intros Hk; cbn; by rewrite (dict_get_absent _ _ _ Hk).
  - cbn. unfold name_part, dict_get.
    by destruct (driver !! "first_name"), (driver !! "last_name").
Qed.

Lemma nh_row_keeps_record driver : keeps_record 0 driver (NoHeadshot.table_row driver).
Proof.
  intros key col v Hin. revert v. revert key col Hin.
  apply (display_columns_cases
    (fun key col => forall v, driver !! key = Some v ->
       NoHeadshot.table_row driver !! (0 + col)%nat = Some (cell_val v)));
    intros v Hk; cbn; by rewrite (dict_get_present _ _ _ _ Hk).
Qed.

Lemma main_row_shows_record image driver :
  shows_record 1 driver (Main.table_row image driver).
Proof.
  destruct (nh_row_shows_record driver) as [Hcells Hname].
  rewrite table_row_prepends. split.
  - intros key col Hin Hk. apply (Hcells key col Hin Hk).
  - apply Hname.
Qed.

Lemma main_row_keeps_record image driver :
  keeps_record 1 driver (Main.table_row image driver).
Proof.
  intros key col v Hin Hk. rewrite table_row_prepends.
  apply (nh_row_keeps_record driver key col v Hin Hk).
Qed.

End Rows.

(** ** The whole of [create_pdf] *)

Section CreatePdf.
Context `{Collaborators}.

Lemma nh_create_pdf_run drivers_data filename fs :
  NoHeadshot.create_pdf drivers_data filename fs =
  match NoHeadshot.elements drivers_data fs with
  | (Ok els, fs1, t1) =>
      match doc_build_outcome filename els fs1 with
      | Built =>
          (Ok tt, <[filename := File]> fs1,
           t1 ++ [ev_build filename els;
                  ev_print ("✅ PDF '" +:+ filename +:+ "' created successfully!")])
      | BuildFailed e wrote =>
          (Raise e, if wrote then <[filename := File]> fs1 else fs1,
           t1 ++ [ev_build filename els])
      end
  | (Raise e, fs1, t1) => (Raise e, fs1, t1)
  end.
Proof.
  unfold NoHeadshot.create_pdf. rewrite bind_run.
  destruct (NoHeadshot.elements drivers_data fs) as [[[els|e] fs1] t1]; [|done].
  rewrite bind_run. unfold doc_build at 1.
  by destruct (doc_build_outcome filename els fs1) as [|e wrote].
Qed.

Lemma main_create_pdf_run drivers_data filename fs :
  Main.create_pdf drivers_data filename fs =
  match Main.elements drivers_data fs with
  | (Ok els, fs1, t1) =>
      match doc_build_outcome filename els fs1 with
      | Built =>
          (Ok tt, <[filename := File]> fs1,
           t1 ++ [ev_build filename els;
                  ev_print ("✅ PDF '" +:+ filename +:+ "' created successfully!")])
      | BuildFailed e wrote =>
          (Raise e, if wrote then <[filename := File]> fs1 else fs1,
           t1 ++ [ev_build filename els])
      end
  | (Raise e, fs1, t1) => (Raise e, fs1, t1)
  end.
Proof.
  unfold Main.create_pdf. rewrite bind_run.
  destruct (Main.elements drivers_data fs) as [[[els|e] fs1] t1]; [|done].
  rewrite bind_run. unfold doc_build at 1.
  by destruct (doc_build_outcome filename els fs1) as [|e wrote].
Qed.

Lemma row_backgrounds_lookup cs i c :
  cs !! i = Some c -> row_background i c ∈ row_backgrounds cs.
Proof.
  intros Hc. unfold row_backgrounds. apply list_elem_of_lookup. exists i.
  by rewrite list_lookup_imap, Hc.
Qed.

(** A successful run of noheadshot.py built the table of the header and
    one row per record, painted with the resolved colours. *)
Lemma nh_create_pdf_ok_inv drivers_data filename fs r fs' t :
  NoHeadshot.create_pdf drivers_data filename fs = (Ok r, fs', t) ->
  exists cs,
    Forall2 (fun d c => NoHeadshot.team_color d = Ok c) drivers_data cs /\
    fs' = <[filename := File]> fs /\
    t = [ev_exists "f1_logo.png";
         ev_build filename
           (front fs ++
            [Table (NoHeadshot.header :: (NoHeadshot.table_row <$> drivers_data))
                   NoHeadshot.col_widths
                   (NoHeadshot.base_style ++ row_backgrounds cs)]);
         ev_print ("✅ PDF '" +:+ filename +:+ "' created successfully!")].
Proof.
  rewrite nh_create_pdf_run.
  destruct (NoHeadshot.elements drivers_data fs) as [[[els|e] fs1] t1] eqn:Hel;
    [|discriminate].
  apply nh_elements_ok_inv in Hel as (cs & Hcs & -> & -> & ->).
  destruct (doc_build_outcome _ _ _) as [|e wrote]; [|discriminate].
  intros [= <- <- <-]. by exists cs.
Qed.

(** A successful run of main.py built the table of the header and one
    row per record, each with its image cell in front. *)
Lemma main_create_pdf_ok_inv drivers_data filename fs r fs' t :
  Main.create_pdf drivers_data filename fs = (Ok r, fs', t) ->
  exists hs cs before,
    Forall2 (fun d c => Main.team_color d = Ok c) drivers_data cs /\
    length hs = length drivers_data /\
    t = before ++
        [ev_build filename
           (front fs ++
            [Table (Main.header ::
                    zip_with (fun h d => Main.table_row (Main.image h) d) hs drivers_data)
                   Main.col_widths
                   (Main.base_style ++ row_backgrounds cs)]);
         ev_print ("✅ PDF '" +:+ filename +:+ "' created successfully!")].
Proof.
  rewrite main_create_pdf_run.
  destruct (Main.elements drivers_data fs) as [[[els|e] fs1] t1] eqn:Hel;
    [|discriminate].
  apply main_elements_ok_inv in Hel as (hs & cs & Hcs & Hlen & ->).
  destruct (doc_build_outcome _ _ _) as [|e wrote]; [|discriminate].
  intros [= <- <- <-]. by exists hs, cs, t1.
Qed.

Lemma zip_with_lookup_row hs (drivers_data : list dict) i driver :
  length hs = length drivers_data ->
  drivers_data !! i = Some driver ->
  exists h,
    zip_with (fun h d => Main.table_row (Main.image h) d) hs drivers_data !! i
    = Some (Main.table_row (Main.image h) driver).
Proof.
  intros Hlen Hd.
  destruct (hs !! i) as [h|] eqn:Hh.
  - exists h. rewrite lookup_zip_with, Hh. simpl. by rewrite Hd.
  - apply lookup_ge_None in Hh. apply lookup_lt_Some in Hd. lia.
Qed.

End CreatePdf.

(** ** The row model *)

Section RowModel.
Context `{Collaborators}.

Lemma Forall_exists_Forall2 {A B} (P : A -> B -> Prop) (l : list A) :
  Forall (fun a => exists b, P a b) l -> exists bs, Forall2 P l bs.
Proof.
  induction 1 as [|a l [b Hb] _ [bs Hbs]].
  - by exists [].
  - exists (b :: bs). by constructor.
Qed.

Lemma Forall2_Forall_exists {A B} (P : A -> B -> Prop) (l : list A) bs :
  Forall2 P l bs -> Forall (fun a => exists b, P a b) l.
Proof. induction 1; constructor; eauto. Qed.

(** C1. In the table that [create_pdf] builds, in either file, the row
    of a record shows exactly ["N/A"] in the cell of each display field
    (driver number, acronym, team, date of birth, country) whose key is
    absent, and its full-name cell is the first-name text, a space and
    the last-name text, each being ["N/A"] when its key is absent; so a
    record with only a last name shows ["N/A LastName"].  The sentinel is
    not the empty string. *)
Theorem absent_fields_show_sentinel drivers_data filename fs :
  (forall r fs' t,
     NoHeadshot.create_pdf drivers_data filename fs = (Ok r, fs', t) ->
     exists data style,
       builds_table t filename data NoHeadshot.col_widths style /\
       forall i driver, drivers_data !! i = Some driver ->
         exists row, data !! S i = Some row /\ shows_record 0 driver row)
  /\
  (forall r fs' t,
     Main.create_pdf drivers_data filename fs = (Ok r, fs', t) ->
     exists data style,
       builds_table t filename data Main.col_widths style /\
       forall i driver, drivers_data !! i = Some driver ->
         exists row, data !! S i = Some row /\ shows_record 1 driver row)
  /\
  (forall (driver : dict) last,
     driver !! "first_name" = None -> driver !! "last_name" = Some (PStr last) ->
     name_part driver "first_name" +:+ " " +:+ name_part driver "last_name"
     = "N/A " +:+ last)
  /\ cell_val (PStr "N/A") ≠ cell_val (PStr "").
Proof.
  split; [|split; [|split]].
  - intros r fs' t (cs & Hcs & -> & ->)%nh_create_pdf_ok_inv.
    eexists _, _. split; [by eexists [ev_exists "f1_logo.png"], (front fs), _|].
    intros i driver Hd. exists (NoHeadshot.table_row driver). split.
    + change ((NoHeadshot.table_row <$> drivers_data) !! i
              = Some (NoHeadshot.table_row driver)).
      by rewrite list_lookup_fmap, Hd.
    + apply nh_row_shows_record.
  - intros r fs' t (hs & cs & before & Hcs & Hlen & ->)%main_create_pdf_ok_inv.
    eexists _, _. split; [by eexists before, (front fs), _|].
    intros i driver Hd.
    destruct (zip_with_lookup_row hs drivers_data i driver Hlen Hd) as [h Hrow].
    exists (Main.table_row (Main.image h) driver). split; [exact Hrow|].
    apply main_row_shows_record.
  - intros driver last Hf Hl. unfold name_part. by rewrite Hf, Hl.
  - discriminate.
Qed.

(** C10. The sentinel stands only for an absent key.  In the table that
    [create_pdf] builds, in either file, the cell of a display field
    whose key is present holds the stored value itself, so a stored null
    is the cell; a present name field contributes its [str()] text, which
    for null is ["None"].  For the team colour, the lookup gives [None]
    for a stored null as it does for an absent key, and it is the truth
    test that follows which sends both to the default colour. *)
Theorem present_values_flow drivers_data filename fs :
  (forall r fs' t,
     NoHeadshot.create_pdf drivers_data filename fs = (Ok r, fs', t) ->
     exists data style,
       builds_table t filename data NoHeadshot.col_widths style /\
       forall i driver, drivers_data !! i = Some driver ->
         exists row, data !! S i = Some row /\ keeps_record 0 driver row)
  /\
  (forall r fs' t,
     Main.create_pdf drivers_data filename fs = (Ok r, fs', t) ->
     exists data style,
       builds_table t filename data Main.col_widths style /\
       forall i driver, drivers_data !! i = Some driver ->
         exists row, data !! S i = Some row /\ keeps_record 1 driver row)
  /\
  (forall (driver : dict) key col,
     (key, col) ∈ display_columns -> driver !! key = Some PNone ->
     NoHeadshot.table_row driver !! col = Some (cell_val PNone) /\
     forall image, Main.table_row image driver !! S col = Some (cell_val PNone))
  /\
  (forall (driver : dict) key v,
     driver !! key = Some v -> name_part driver key = py_str v)
  /\ py_str PNone = "None"
  /\
  (forall driver : dict,
     driver !! "team_colour" = Some PNone ->
     dict_get driver "team_colour" PNone
       = dict_get (delete "team_colour" driver) "team_colour" PNone /\
     truthy (dict_get driver "team_colour" PNone) = false /\
     Main.team_color driver = HexColor "#CCCCCC" /\
     Main.team_color (delete "team_colour" driver) = HexColor "#CCCCCC").
Proof.
  split; [|split; [|split; [|split; [|split]]]].
  - intros r fs' t (cs & Hcs & -> & ->)%nh_create_pdf_ok_inv.
    eexists _, _. split; [by eexists [ev_exists "f1_logo.png"], (front fs), _|].
    intros i driver Hd. exists (NoHeadshot.table_row driver). split.
    + change ((NoHeadshot.table_row <$> drivers_data) !! i
              = Some (NoHeadshot.table_row driver)).
      by rewrite list_lookup_fmap, Hd.
    + apply nh_row_keeps_record.
  - intros r fs' t (hs & cs & before & Hcs & Hlen & ->)%main_create_pdf_ok_inv.
    eexists _, _. split; [by eexists before, (front fs), _|].
    intros i driver Hd.
    destruct (zip_with_lookup_row hs drivers_data i driver Hlen Hd) as [h Hrow].
    exists (Main.table_row (Main.image h) driver). split; [exact Hrow|].
    apply main_row_keeps_record.
  - intros driver key col Hin Hk. split.
    + apply (nh_row_keeps_record driver key col PNone Hin Hk).
    + intros image. apply (main_row_keeps_record image driver key col PNone Hin Hk).
  - intros driver key v Hk. unfold name_part. by rewrite Hk.
  - done.
  - intros driver Hk.
    rewrite (dict_get_present _ _ _ _ Hk).
    rewrite (dict_get_absent (delete "team_colour" driver)) by apply lookup_delete_eq.
    split; [done|]. split; [done|]. rewrite !team_color_same. split.
    + apply team_color_default. unfold no_team_colour. rewrite Hk. by left.
    + apply team_color_default. unfold no_team_colour. by rewrite lookup_delete_eq.
Qed.

(** C6, amended.  The id used for the cache is the stored [driver_id]
    when the key is present; otherwise it is the text ["unknown_"]
    followed by the driver number, or by ["N/A"] when the number is
    absent too, which makes it ["unknown_N/A"].  The headshot step of a
    record with a URL is the cache call for that URL and that id. *)
Theorem driver_id_fallback (driver : dict) :
  (forall v, driver !! "driver_id" = Some v -> Main.driver_id driver = v)
  /\
  (forall n,
     driver !! "driver_id" = None -> driver !! "driver_number" = Some n ->
     Main.driver_id driver = PStr ("unknown_" +:+ py_str n))
  /\
  (driver !! "driver_id" = None -> driver !! "driver_number" = None ->
   Main.driver_id driver = PStr "unknown_N/A")
  /\
  (truthy (Main.headshot_url driver) = true ->
   Main.headshot driver
   = Main.download_headshot (Main.headshot_url driver) (Main.driver_id driver)).
Proof.
  unfold Main.driver_id. split; [|split; [|split]].
  - intros v Hk. by rewrite (dict_get_present _ _ _ _ Hk).
  - intros n Hid Hn. by rewrite (dict_get_absent _ _ _ Hid), (dict_get_present _ _ _ _ Hn).
  - intros Hid Hn. by rewrite (dict_get_absent _ _ _ Hid), (dict_get_absent _ _ _ Hn).
  - intros Hurl. unfold Main.headshot. by rewrite Hurl.
Qed.

End RowModel.

(** ** Colours and the assembled table *)

Section Assembly.
Context `{Collaborators}.

(** C2, amended.  The row colour is the one built from ["#CCCCCC"]
    whenever the team colour is absent, empty or spells "none" in any
    letter case; for any other non-empty text it is the colour built from
    that text after a [#], so ["3671C6"] gives the colour of ["#3671C6"],
    and a text that itself denotes CCCCCC gives the default gray as well.
    In the table built by [create_pdf] the row of a record is painted
    with the colour resolved for it. *)
Theorem team_color_resolution (driver : dict) :
  (no_team_colour driver ->
   Main.team_color driver = HexColor "#CCCCCC" /\
   NoHeadshot.team_color driver = HexColor "#CCCCCC")
  /\
  (forall s,
     driver !! "team_colour" = Some (PStr s) -> s ≠ "" -> lower s ≠ "none" ->
     Main.team_color driver = HexColor ("#" +:+ s) /\
     NoHeadshot.team_color driver = HexColor ("#" +:+ s))
  /\
  (driver !! "team_colour" = Some (PStr "3671C6") ->
   Main.team_color driver = HexColor "#3671C6" /\
   NoHeadshot.team_color driver = HexColor "#3671C6")
  /\
  (driver !! "team_colour" = Some (PStr "CCCCCC") ->
   Main.team_color driver = HexColor "#CCCCCC" /\
   NoHeadshot.team_color driver = HexColor "#CCCCCC")
  /\
  (forall drivers_data filename fs r fs' t i,
     drivers_data !! i = Some driver ->
     NoHeadshot.create_pdf drivers_data filename fs = (Ok r, fs', t) \/
     Main.create_pdf drivers_data filename fs = (Ok r, fs', t) ->
     exists data widths style c,
       builds_table t filename data widths style /\
       NoHeadshot.team_color driver = Ok c /\
       row_background i c ∈ style).
Proof.
  assert (Hgiven : forall s,
            driver !! "team_colour" = Some (PStr s) -> s ≠ "" -> lower s ≠ "none" ->
            Main.team_color driver = HexColor ("#" +:+ s) /\
            NoHeadshot.team_color driver = HexColor ("#" +:+ s)).
  { intros s Hk Hs Hl. rewrite team_color_same. split; by apply team_color_given. }
  split; [|split; [|split; [|split]]].
  - intros Hno. rewrite team_color_same. split; by apply team_color_default.
  - exact Hgiven.
  - intros Hk. by apply (Hgiven "3671C6").
  - intros Hk. by apply (Hgiven "CCCCCC").
  - intros drivers_data filename fs r fs' t i Hd [Hrun|Hrun].
    + apply nh_create_pdf_ok_inv in Hrun as (cs & Hcs & -> & ->).
      destruct (Forall2_lookup_l _ _ _ _ _ Hcs Hd) as (c & Hc & Hcol).
      eexists _, _, _, c.
      split; [by eexists [ev_exists "f1_logo.png"], (front fs), _|].
      split; [done|]. apply elem_of_app. right. by apply row_backgrounds_lookup.
    + apply main_create_pdf_ok_inv in Hrun as (hs & cs & before & Hcs & Hlen & ->).
      destruct (Forall2_lookup_l _ _ _ _ _ Hcs Hd) as (c & Hc & Hcol).
      eexists _, _, _, c.
      split; [by eexists before, (front fs), _|].
      split; [done|]. apply elem_of_app. right. by apply row_backgrounds_lookup.
Qed.

Lemma drop_first_column_rows hs : forall drivers_data : list dict,
  length hs = length drivers_data ->
  drop_first_column (zip_with (fun h d => Main.table_row (Main.image h) d) hs drivers_data)
  = NoHeadshot.table_row <$> drivers_data.
Proof.
  unfold drop_first_column.
  induction hs as [|h hs IH]; intros [|d ds] Hlen; try done.
  cbn [zip_with fmap list_fmap]. f_equal. apply IH. by injection Hlen.
Qed.

(** C7. A successful [create_pdf], in either file, builds a table of
    exactly one header row followed by one row per record, in the order
    of the records, so of as many rows as records plus one.  In
    noheadshot.py the element list is assembled whenever every colour
    can be built.  On the empty list the assembly always succeeds, in
    both files, and gives the table of the header row alone; this
    document is handed to the layout engine, and [create_pdf] returns
    when the engine does and raises only what the engine raises. *)
Theorem table_has_header_and_rows drivers_data filename fs :
  (forall r fs' t,
     NoHeadshot.create_pdf drivers_data filename fs = (Ok r, fs', t) ->
     exists data style,
       builds_table t filename data NoHeadshot.col_widths style /\
       length data = (length drivers_data + 1)%nat /\
       data !! 0%nat = Some NoHeadshot.header /\
       forall i driver, drivers_data !! i = Some driver ->
         data !! S i = Some (NoHeadshot.table_row driver))
  /\
  (forall r fs' t,
     Main.create_pdf drivers_data filename fs = (Ok r, fs', t) ->
     exists data style,
       builds_table t filename data Main.col_widths style /\
       length data = (length drivers_data + 1)%nat /\
       data !! 0%nat = Some Main.header /\
       forall i driver, drivers_data !! i = Some driver ->
         exists image, data !! S i = Some (Main.table_row image driver))
  /\
  (Forall (fun d => exists c, NoHeadshot.team_color d = Ok c) drivers_data ->
   exists style,
     NoHeadshot.elements drivers_data fs =
     (Ok (front fs ++
          [Table (NoHeadshot.header :: (NoHeadshot.table_row <$> drivers_data))
                 NoHeadshot.col_widths style]),
      fs, [ev_exists "f1_logo.png"]))
  /\
  (let document := front fs ++
                   [Table [NoHeadshot.header] NoHeadshot.col_widths NoHeadshot.base_style] in
   NoHeadshot.elements [] fs = (Ok document, fs, [ev_exists "f1_logo.png"]) /\
   (doc_build_outcome filename document fs = Built ->
    exists t,
      NoHeadshot.create_pdf [] filename fs = (Ok tt, <[filename := File]> fs, t) /\
      builds_table t filename [NoHeadshot.header] NoHeadshot.col_widths
        NoHeadshot.base_style) /\
   (forall e fs' t,
      NoHeadshot.create_pdf [] filename fs = (Raise e, fs', t) ->
      exists wrote, doc_build_outcome filename document fs = BuildFailed e wrote))
  /\
  (let document := front fs ++ [Table [Main.header] Main.col_widths Main.base_style] in
   Main.elements [] fs = (Ok document, fs, [ev_exists "f1_logo.png"]) /\
   (doc_build_outcome filename document fs = Built ->
    exists t,
      Main.create_pdf [] filename fs = (Ok tt, <[filename := File]> fs, t) /\
      builds_table t filename [Main.header] Main.col_widths Main.base_style) /\
   (forall e fs' t,
      Main.create_pdf [] filename fs = (Raise e, fs', t) ->
      exists wrote, doc_build_outcome filename document fs = BuildFailed e wrote)).
Proof.
  split; [|split; [|split; [|split]]].
  - intros r fs' t (cs & Hcs & -> & ->)%nh_create_pdf_ok_inv.
    eexists _, _. split; [by eexists [ev_exists "f1_logo.png"], (front fs), _|].
    split; [|split; [done|]].
    + cbn [length]. rewrite length_fmap. lia.
    + intros i driver Hd.
      change ((NoHeadshot.table_row <$> drivers_data) !! i
              = Some (NoHeadshot.table_row driver)).
      by rewrite list_lookup_fmap, Hd.
  - intros r fs' t (hs & cs & before & Hcs & Hlen & ->)%main_create_pdf_ok_inv.
    eexists _, _. split; [by eexists before, (front fs), _|].
    split; [|split; [done|]].
    + cbn [length]. rewrite length_zip_with, Hlen. lia.
    + intros i driver Hd.
      destruct (zip_with_lookup_row hs drivers_data i driver Hlen Hd) as [h Hrow].
      by exists (Main.image h).
  - intros [cs Hcs]%Forall_exists_Forall2. eexists.
    by apply (nh_elements_total _ cs).
  - intros document.
    assert (Hel : NoHeadshot.elements [] fs = (Ok document, fs, [ev_exists "f1_logo.png"])).
    { by rewrite (nh_elements_total [] []) by constructor. }
    split; [done|]. split.
    + intros Hbuilt. eexists. rewrite nh_create_pdf_run, Hel, Hbuilt.
      split; [done|]. by eexists [ev_exists "f1_logo.png"], (front fs), _.
    + intros e fs' t. rewrite nh_create_pdf_run, Hel.
      destruct (doc_build_outcome filename document fs) as [|e' wrote]; [discriminate|].
      intros [= <- _ _]. by exists wrote.
  - intros document.
    assert (Hel : Main.elements [] fs = (Ok document, fs, [ev_exists "f1_logo.png"])).
    { unfold Main.elements. rewrite bind_run. unfold os_path_exists at 1.
      subst document. unfold front. by destruct (bool_decide _). }
    split; [done|]. split.
    + intros Hbuilt. eexists. rewrite main_create_pdf_run, Hel, Hbuilt.
      split; [done|]. by eexists [ev_exists "f1_logo.png"], (front fs), _.
    + intros e fs' t. rewrite main_create_pdf_run, Hel.
      destruct (doc_build_outcome filename document fs) as [|e' wrote]; [discriminate|].
      intros [= <- _ _]. by exists wrote.
Qed.

(** C9. For the same records the two files agree on everything but the
    headshot column: a row of main.py is its image cell followed by the
    row of noheadshot.py, the colour of a record is resolved alike, the
    header and the column widths of main.py are those of noheadshot.py
    with one more in front.  When both runs of [create_pdf] succeed,
    their tables have the same style commands (so the same row colours)
    and the table of noheadshot.py is the table of main.py less its
    column 0; and whenever main.py assembles its element list, so does
    noheadshot.py, with the tables related in this way. *)
Theorem variants_agree drivers_data fs :
  (forall image driver, Main.table_row image driver = image :: NoHeadshot.table_row driver)
  /\ (forall driver, Main.team_color driver = NoHeadshot.team_color driver)
  /\ Main.header = cell_val (PStr "Headshot") :: NoHeadshot.header
  /\ Main.col_widths = 60 :: NoHeadshot.col_widths
  /\
  (forall filename1 filename2 r1 fs1 t1 r2 fs2 t2,
     Main.create_pdf drivers_data filename1 fs = (Ok r1, fs1, t1) ->
     NoHeadshot.create_pdf drivers_data filename2 fs = (Ok r2, fs2, t2) ->
     exists data style,
       builds_table t1 filename1 data Main.col_widths style /\
       Forall (fun row => length row = 7%nat) data /\
       builds_table t2 filename2 (drop_first_column data) NoHeadshot.col_widths style)
  /\
  (forall els1 fs1 t1,
     Main.elements drivers_data fs = (Ok els1, fs1, t1) ->
     exists data style,
       els1 = front fs ++ [Table data Main.col_widths style] /\
       Forall (fun row => length row = 7%nat) data /\
       NoHeadshot.elements drivers_data fs =
       (Ok (front fs ++ [Table (drop_first_column data) NoHeadshot.col_widths style]),
        fs, [ev_exists "f1_logo.png"])).
Proof.
  assert (Hseven : forall hs,
            Forall (fun row : list cell => length row = 7%nat)
              (Main.header ::
               zip_with (fun h d => Main.table_row (Main.image h) d) hs drivers_data)).
  { intros hs. constructor; [done|]. apply Forall_forall. intros row Hrow.
    apply list_elem_of_lookup in Hrow as [i Hrow].
    by apply lookup_zip_with_Some in Hrow as (h & d & -> & _ & _). }
  assert (Hdrop : forall hs, length hs = length drivers_data ->
            drop_first_column
              (Main.header ::
               zip_with (fun h d => Main.table_row (Main.image h) d) hs drivers_data)
            = NoHeadshot.header :: (NoHeadshot.table_row <$> drivers_data)).
  { intros hs Hlen. unfold drop_first_column at 1. cbn [fmap list_fmap].
    fold (drop_first_column
            (zip_with (fun h d => Main.table_row (Main.image h) d) hs drivers_data)).
    by rewrite drop_first_column_rows. }
  split; [done|]. split; [done|]. split; [done|]. split; [done|]. split.
  - intros filename1 filename2 r1 fs1 t1 r2 fs2 t2
      (hs & cs & before & Hcs & Hlen & ->)%main_create_pdf_ok_inv
      (cs' & Hcs' & -> & ->)%nh_create_pdf_ok_inv.
    assert (cs' = cs) as ->.
    { apply list_eq. intros i. destruct (drivers_data !! i) as [d|] eqn:Hd.
      - destruct (Forall2_lookup_l _ _ _ _ _ Hcs Hd) as (c & Hc & Hcol).
        destruct (Forall2_lookup_l _ _ _ _ _ Hcs' Hd) as (c' & Hc' & Hcol').
        rewrite Hc, Hc'. rewrite team_color_same in Hcol. congruence.
      - apply lookup_ge_None in Hd.
        rewrite (lookup_ge_None_2 cs), (lookup_ge_None_2 cs'); [done| |].
        + by rewrite <- (Forall2_length _ _ _ Hcs').
        + by rewrite <- (Forall2_length _ _ _ Hcs). }
    eexists _, _. split; [by eexists before, (front fs), _|]. split; [apply Hseven|].
    eexists [ev_exists "f1_logo.png"], (front fs), _. by rewrite Hdrop.
  - intros els1 fs1 t1 (hs & cs & Hcs & Hlen & ->)%main_elements_ok_inv.
    eexists _, _. split; [done|]. split; [apply Hseven|].
    rewrite Hdrop by done. by apply (nh_elements_total _ cs).
Qed.

(** An exception of the colour constructor leaves the row loop and
    [create_pdf] as it is: no document is built. *)
Lemma colour_error_propagates (driver : dict) s e :
  driver !! "team_colour" = Some (PStr s) -> s ≠ "" -> lower s ≠ "none" ->
  HexColor ("#" +:+ s) = Raise e ->
  Main.team_color driver = Raise e /\
  NoHeadshot.team_color driver = Raise e /\
  forall before after filename fs,
    Forall (fun d => exists c, NoHeadshot.team_color d = Ok c) before ->
    NoHeadshot.create_pdf (before ++ driver :: after) filename fs
      = (Raise e, fs, [ev_exists "f1_logo.png"])
    /\
    (fs !! "headshots" ≠ Some File ->
     exists fs' t,
       Main.create_pdf (before ++ driver :: after) filename fs = (Raise e, fs', t) /\
       no_document t).
Proof.
  intros Hk Hs Hl He.
  assert (Hc : NoHeadshot.team_color driver = Raise e).
  { by rewrite (team_color_given driver s). }
  split; [by rewrite team_color_same|]. split; [done|].
  intros before after filename fs Hok. split.
  - rewrite nh_create_pdf_run, nh_elements_run.
    by rewrite (nh_populate_raises before driver after e).
  - intros Hdir.
    destruct (main_populate_raises before driver after e [Main.header] [] fs Hdir Hok Hc)
      as (fs' & t & Hpop & Hnd).
    exists fs', ([ev_exists "f1_logo.png"] ++ t).
    split.
    + rewrite main_create_pdf_run. unfold Main.elements.
      rewrite bind_run. unfold os_path_exists at 1. by rewrite bind_run, Hpop.
    + intros f els [Hin|Hin]%elem_of_cons; [discriminate|]. by apply (Hnd f els).
Qed.

End Assembly.

(** C8. A team colour that is a non-empty text other than "none" goes to
    the colour constructor as it is, in both files: when the constructor
    raises, so does [create_pdf], without building a document and
    without falling back to the default colour.  With reportlab's
    constructor there is such a record: the text ["ZZZZZZ"] is not
    well-formed hex and raises [ValueError]. *)
Theorem malformed_colour_unguarded :
  (forall (C : Collaborators) (driver : dict) s e,
     driver !! "team_colour" = Some (PStr s) -> s ≠ "" -> lower s ≠ "none" ->
     HexColor ("#" +:+ s) = Raise e ->
     Main.team_color driver = Raise e /\
     NoHeadshot.team_color driver = Raise e /\
     forall before after filename fs,
       Forall (fun d => exists c, NoHeadshot.team_color d = Ok c) before ->
       NoHeadshot.create_pdf (before ++ driver :: after) filename fs
         = (Raise e, fs, [ev_exists "f1_logo.png"])
       /\
       (fs !! "headshots" ≠ Some File ->
        exists fs' t,
          Main.create_pdf (before ++ driver :: after) filename fs = (Raise e, fs', t) /\
          no_document t))
  /\
  (exists (driver : dict) s e,
     driver !! "team_colour" = Some (PStr s) /\
     s ≠ "" /\ lower s ≠ "none" /\ valid_hex s = false /\
     reportlab_HexColor ("#" +:+ s) = Raise e /\
     exn_cls e = ValueError /\
     NoHeadshot.create_pdf (H := sample) [driver] NoHeadshot.default_filename ∅
       = (Raise e, ∅, [ev_exists "f1_logo.png"]) /\
     Main.create_pdf (H := sample) [driver] Main.default_filename ∅
       = (Raise e, ∅, [ev_exists "f1_logo.png"])).
Proof.
  split.
  - intros C driver s e. apply colour_error_propagates.
  - exists {[ "team_colour" := PStr "ZZZZZZ" ]}, "ZZZZZZ".
    eexists. split; [reflexivity|]. split; [discriminate|]. split; [discriminate|].
    split; [reflexivity|]. split; [reflexivity|]. split; [reflexivity|].
    split; reflexivity.
Qed.

(** ** Closed examples

    The statements above at concrete records, with the concrete
    collaborators [sample]. *)

Example verstappen_row :
  NoHeadshot.table_row verstappen =
  cell_val <$> [PInt 1; PStr "Max Verstappen"; PStr "VER"; PStr "Red Bull";
                PStr "1997-09-30"; PStr "NED"].
Proof. reflexivity. Qed.

Example only_last_name_row :
  NoHeadshot.table_row only_last_name =
  cell_val ∘ PStr <$> ["N/A"; "N/A Norris"; "N/A"; "N/A"; "N/A"; "N/A"].
Proof. reflexivity. Qed.

Example verstappen_colour :
  Main.team_color verstappen = Ok (mkColor 54 113 198).
Proof. reflexivity. Qed.

(** Wrong length alone does not make reportlab's constructor raise. *)
Example short_hex_is_accepted :
  valid_hex "FFF" = false /\ reportlab_HexColor "#FFF" = Ok (mkColor 0 15 255).
Proof. split; reflexivity. Qed.

Lemma absent_fields_show_sentinel_witness :
  let run := NoHeadshot.create_pdf [only_last_name] NoHeadshot.default_filename ∅ in
  exists data style,
    builds_table run.2 NoHeadshot.default_filename data NoHeadshot.col_widths style /\
    forall i driver, [only_last_name] !! i = Some driver ->
      exists row, data !! S i = Some row /\ shows_record 0 driver row.
Proof.
  intros run.
  exact (proj1 (absent_fields_show_sentinel [only_last_name] NoHeadshot.default_filename ∅)
           tt run.1.2 run.2 eq_refl).
Defined.

Lemma present_values_flow_witness :
  let driver : dict := {[ "team_name" := PNone ]} in
  NoHeadshot.table_row driver !! 3%nat = Some (cell_val PNone) /\
  forall image, Main.table_row image driver !! 4%nat = Some (cell_val PNone).
Proof.
  intros driver.
  destruct (present_values_flow [] NoHeadshot.default_filename ∅) as (_ & _ & Hnull & _).
  apply (Hnull driver "team_name" 3%nat).
  - unfold display_columns. do 3 constructor.
  - reflexivity.
Defined.

Lemma driver_id_fallback_witness :
  Main.driver_id (<["driver_number" := PInt 44]> ∅) = PStr "unknown_44".
Proof.
  destruct (driver_id_fallback (<["driver_number" := PInt 44]> ∅)) as (_ & Hnumber & _).
  exact (Hnumber (PInt 44) eq_refl eq_refl).
Defined.

(** C6, as stated, fails: with neither id nor number the id is not the
    sentinel. *)
Lemma driver_id_without_number_is_not_sentinel :
  Main.driver_id ∅ = PStr "unknown_N/A" /\ Main.driver_id ∅ ≠ PStr "N/A".
Proof. split; [reflexivity|discriminate]. Qed.

Lemma team_color_resolution_witness :
  Main.team_color verstappen = HexColor "#3671C6" /\
  NoHeadshot.team_color verstappen = HexColor "#3671C6".
Proof.
  destruct (team_color_resolution verstappen) as (_ & _ & Hexample & _).
  exact (Hexample eq_refl).
Defined.

(** C2, as stated, fails: the default gray is also the colour of a
    record whose team colour is present, non-empty and not "none". *)
Lemma default_gray_without_default :
  let driver : dict := {[ "team_colour" := PStr "CCCCCC" ]} in
  Main.team_color driver = HexColor "#CCCCCC" /\
  NoHeadshot.team_color driver = HexColor "#CCCCCC" /\
  HexColor "#CCCCCC" = Ok (mkColor 204 204 204) /\
  ~ no_team_colour driver.
Proof.
  intros driver. split; [reflexivity|]. split; [reflexivity|]. split; [reflexivity|].
  unfold no_team_colour. change (driver !! "team_colour") with (Some (PStr "CCCCCC")).
  intros [Hv|(s & [= <-] & Hs)]; discriminate.
Qed.

Lemma download_without_url_witness :
  Main.download_headshot (PStr "") (PInt 1) ∅ = (Ok None, ∅, []) /\
  Main.download_headshot PNone (PInt 1) ∅ = (Ok None, ∅, []).
Proof.
  split.
  - exact (download_without_url (PStr "") (PInt 1) ∅ eq_refl).
  - exact (download_without_url PNone (PInt 1) ∅ eq_refl).
Defined.

Lemma download_cached_witness :
  let first := Main.download_headshot (PStr "http://x/1.png") (PInt 1) ∅ in
  first.1.1 = Ok (Some "headshots/1.png") /\
  Main.download_headshot (PStr "http://elsewhere/2.png") (PInt 1) first.1.2 =
  (Ok (Some "headshots/1.png"), first.1.2,
   [ev_makedirs "headshots"; ev_exists "headshots/1.png"]).
Proof.
  intros first. split; [reflexivity|].
  destruct (download_cached (PStr "http://x/1.png") (PInt 1) ∅ eq_refl) as [_ Hsecond].
  exact (proj1 (Hsecond "headshots/1.png" first.1.2 first.2
                  (PStr "http://elsewhere/2.png") eq_refl eq_refl)).
Defined.

(** C3, as stated, fails: the file of the id is in the cache, and the
    call with an empty URL returns [None], not its path. *)
Lemma cached_file_not_returned_without_url :
  let first := Main.download_headshot (PStr "http://x/1.png") (PInt 1) ∅ in
  first.1.1 = Ok (Some "headshots/1.png") /\
  is_Some (first.1.2 !! "headshots/1.png") /\
  Main.download_headshot (PStr "") (PInt 1) first.1.2 = (Ok None, first.1.2, []).
Proof.
  intros first. split; [reflexivity|]. split; [|reflexivity].
  exists File. reflexivity.
Qed.

Lemma download_failure_witness :
  Main.download_headshot (PStr "http://x/broken.png") (PInt 3) ∅ =
  (Ok None, <["headshots" := Dir]> ∅,
   [ev_makedirs "headshots"; ev_exists "headshots/3.png";
    ev_get (PStr "http://x/broken.png");
    ev_print "⚠️ Failed to download image for 3: cannot identify image file"]).
Proof.
  destruct (download_failure (PStr "http://x/broken.png") (PInt 3) ∅)
    as (_ & _ & Hdecode & _).
  - reflexivity.
  - apply lookup_empty.
  - rewrite lookup_empty. discriminate.
  - exact (Hdecode (mkResponse 200 "not an image") _ eq_refl eq_refl eq_refl).
Defined.

(** C5, as stated, fails: on a response that is not a success the call
    returns [None] and writes nothing, but prints no warning. *)
Lemma no_warning_on_error_status :
  requests_get (PStr "http://x/missing.png") = Ok (mkResponse 404 "") /\
  Main.download_headshot (PStr "http://x/missing.png") (PInt 3) ∅ =
  (Ok None, <["headshots" := Dir]> ∅,
   [ev_makedirs "headshots"; ev_exists "headshots/3.png";
    ev_get (PStr "http://x/missing.png")]) /\
  no_warning [ev_makedirs "headshots"; ev_exists "headshots/3.png";
              ev_get (PStr "http://x/missing.png")].
Proof.
  split; [reflexivity|]. split; [reflexivity|].
  intros text Hin.
  absent_from_trace Hin.
Qed.

Lemma table_has_header_and_rows_witness :
  let run := NoHeadshot.create_pdf [verstappen; only_last_name] NoHeadshot.default_filename ∅ in
  exists data style,
    builds_table run.2 NoHeadshot.default_filename data NoHeadshot.col_widths style /\
    length data = 3%nat /\
    data !! 0%nat = Some NoHeadshot.header /\
    forall i driver, [verstappen; only_last_name] !! i = Some driver ->
      data !! S i = Some (NoHeadshot.table_row driver).
Proof.
  intros run.
  exact (proj1 (table_has_header_and_rows [verstappen; only_last_name]
                  NoHeadshot.default_filename ∅) tt run.1.2 run.2 eq_refl).
Defined.

Lemma variants_agree_witness :
  let run1 := Main.create_pdf [verstappen; only_last_name] Main.default_filename ∅ in
  let run2 :=
    NoHeadshot.create_pdf [verstappen; only_last_name] NoHeadshot.default_filename ∅ in
  exists data style,
    builds_table run1.2 Main.default_filename data Main.col_widths style /\
    Forall (fun row => length row = 7%nat) data /\
    builds_table run2.2 NoHeadshot.default_filename (drop_first_column data)
      NoHeadshot.col_widths style.
Proof.
  intros run1 run2.
  destruct (variants_agree [verstappen; only_last_name] ∅) as (_ & _ & _ & _ & Hboth & _).
  exact (Hboth Main.default_filename NoHeadshot.default_filename
           tt run1.1.2 run1.2 tt run2.1.2 run2.2 eq_refl eq_refl).
Defined.

(** * Further properties *)

(** ** More on the headshot cache *)

Section CacheEffects.
Context `{Collaborators}.

Lemma requests_app t1 t2 : requests (t1 ++ t2) = requests t1 ++ requests t2.
Proof. apply omap_app. Qed.

Lemma no_document_app t1 t2 : no_document t1 -> no_document t2 -> no_document (t1 ++ t2).
Proof.
  intros H1 H2 f els [Hin|Hin]%elem_of_app; [by apply (H1 f els)|by apply (H2 f els)].
Qed.

Lemma no_document_explicit (t : list event) :
  (forall f els, Forall (fun ev => ev ≠ ev_build f els) t) -> no_document t.
Proof.
  intros Ht f els Hin. specialize (Ht f els).
  rewrite Forall_forall in Ht. by apply (Ht _ Hin).
Qed.

Lemma with_cache_dir_grows fs : fs ⊆ with_cache_dir fs.
Proof.
  unfold with_cache_dir. destruct (fs !! "headshots") eqn:Hd; [done|].
  by apply insert_subseteq.
Qed.

Lemma with_cache_dir_other fs p : p ≠ "headshots" -> with_cache_dir fs !! p = fs !! p.
Proof.
  intros Hp. unfold with_cache_dir. destruct (fs !! "headshots"); [done|].
  by rewrite lookup_insert_ne.
Qed.

Lemma download_without_url_run image_url driver_id fs :
  truthy image_url = false ->
  Main.download_headshot image_url driver_id fs = (Ok None, fs, []).
Proof. intros Hurl. unfold Main.download_headshot. by rewrite Hurl. Qed.

(** Everything a call of [download_headshot] can do, whatever the
    collaborators answer. *)
Lemma download_effects image_url driver_id fs r fs' t :
  Main.download_headshot image_url driver_id fs = (r, fs', t) ->
  fs ⊆ fs' /\
  (forall p, p ≠ "headshots" -> p ≠ Main.file_path driver_id -> fs' !! p = fs !! p) /\
  (requests t = [] \/
   requests t = [image_url] /\ fs !! Main.file_path driver_id = None) /\
  no_document t.
Proof.
  destruct (truthy image_url) eqn:Hurl.
  2:{ rewrite download_without_url_run by done. intros [= <- <- <-].
      split; [done|]. split; [done|]. split; [by left|].
      by intros f els Hin%elem_of_nil. }
  assert (fs !! "headshots" = Some File \/ fs !! "headshots" ≠ Some File) as [Hf|Hf].
  { destruct (fs !! "headshots") as [[|]|]; auto. }
  { rewrite download_makedirs_raises by done. intros [= <- <- <-].
    split; [done|]. split; [done|]. split; [by left|].
    apply no_document_explicit. intros f els. repeat constructor; discriminate. }
  rewrite download_run by done. cbv zeta.
  pose proof (with_cache_dir_is_dir fs Hf) as Hd.
  pose proof (with_cache_dir_grows fs) as Hgrow.
  assert (Hframe : forall p, p ≠ "headshots" -> p ≠ Main.file_path driver_id ->
            with_cache_dir fs !! p = fs !! p).
  { intros p Hp _. by apply with_cache_dir_other. }
  assert (Hframe' : forall p, p ≠ "headshots" -> p ≠ Main.file_path driver_id ->
            <[Main.file_path driver_id := File]> (with_cache_dir fs) !! p = fs !! p).
  { intros p Hp Hp'. rewrite lookup_insert_ne by done. by apply with_cache_dir_other. }
  case_bool_decide as Hex.
  { intros [= <- <- <-]. split; [done|]. split; [done|]. split; [by left|].
    apply no_document_explicit. intros f els. repeat constructor; discriminate. }
  assert (Hmiss : fs !! Main.file_path driver_id = None).
  { destruct (fs !! Main.file_path driver_id) eqn:Hfile; [|done].
    destruct Hex. by eexists. }
  assert (Hgrow' : fs ⊆ <[Main.file_path driver_id := File]> (with_cache_dir fs)).
  { etrans; [exact Hgrow|]. apply insert_subseteq. by rewrite with_cache_dir_file. }
  repeat match goal with
  | |- context [if ?b then _ else _] => destruct b
  | |- context [match ?x with Ok _ => _ | Raise _ => _ end] => destruct x
  | |- context [match ?x with Some _ => _ | None => _ end] => destruct x
  end;
  (intros [= <- <- <-];
   split; [done|]; split; [done|]; split; [by right|];
   apply no_document_explicit; intros f els; repeat constructor; discriminate).
Qed.


Lemma string_length_app (s1 s2 : string) :
  String.length (s1 +:+ s2) = (String.length s1 + String.length s2)%nat.
Proof. induction s1 as [|c s1 IH]; simpl; [done|by rewrite IH]. Qed.

Lemma append_cancel_r (s1 s2 suffix : string) :
  s1 +:+ suffix = s2 +:+ suffix -> s1 = s2.
Proof.
  revert s2. induction s1 as [|c s1 IH]; intros [|c' s2] Heq.
  - done.
  - apply (f_equal String.length) in Heq.
    rewrite !string_length_app in Heq. simpl in Heq. lia.
  - apply (f_equal String.length) in Heq.
    rewrite !string_length_app in Heq. simpl in Heq. lia.
  - change (String c (s1 +:+ suffix) = String c' (s2 +:+ suffix)) in Heq.
    injection Heq as -> Heq. f_equal. by apply IH.
Qed.


(** X3. A call of [download_headshot] makes at most one network
    request, and only for the URL it was given and only when the cache
    file of the id was not there before the call. *)
Theorem download_requests_at_most_once image_url driver_id fs r fs' t :
  Main.download_headshot image_url driver_id fs = (r, fs', t) ->
  (length (requests t) <= 1)%nat /\
  (forall url, url ∈ requests t ->
     url = image_url /\ fs !! Main.file_path driver_id = None) /\
  (is_Some (fs !! Main.file_path driver_id) -> requests t = []).
Proof.
  intros (_ & _ & [Hreq|[Hreq Hmiss]] & _)%download_effects; rewrite Hreq.
  - split; [simpl; lia|]. split; [by intros url Hin%elem_of_nil|done].
  - split; [simpl; lia|]. split.
    + intros url Hin%list_elem_of_singleton. by subst.
    + rewrite Hmiss. by intros [? ?].
Qed.

(** X4. When the URL tests true, no file is cached for the id, the
    response has status 200, its bytes open and resize to an image and
    the image can be saved, [download_headshot] returns the cache path
    of the id; afterwards the cache directory and the file exist, and
    the call made one request and one save and printed nothing. *)
Theorem download_stores_image image_url driver_id fs response img img' :
  truthy image_url = true ->
  fs !! "headshots" ≠ Some File ->
  fs !! Main.file_path driver_id = None ->
  requests_get image_url = Ok response ->
  status_code response = 200 ->
  Image_open (content response) = Ok img ->
  Image_resize img (50, 50) = Ok img' ->
  Image_save_error img' (Main.file_path driver_id) (with_cache_dir fs) = None ->
  exists fs',
    Main.download_headshot image_url driver_id fs =
    (Ok (Some (Main.file_path driver_id)), fs',
     [ev_makedirs "headshots"; ev_exists (Main.file_path driver_id);
      ev_get image_url; ev_save (Main.file_path driver_id)])
    /\ fs' !! "headshots" = Some Dir
    /\ fs' !! Main.file_path driver_id = Some File
    /\ no_warning [ev_makedirs "headshots"; ev_exists (Main.file_path driver_id);
                   ev_get image_url; ev_save (Main.file_path driver_id)].
Proof.
  intros Hurl Hdir Hmiss Hget Hstatus Hopen Hresize Hsave.
  exists (<[Main.file_path driver_id := File]> (with_cache_dir fs)).
  split; [|split; [|split]].
  - rewrite download_run by done. cbv zeta.
    rewrite bool_decide_eq_false_2 by (rewrite Hmiss; by intros [? ?]).
    rewrite Hget, Hstatus, Hopen. simpl. by rewrite Hresize, Hsave.
  - rewrite lookup_insert_ne by apply file_path_not_dir.
    by apply with_cache_dir_is_dir.
  - apply lookup_insert_eq.
  - intros text Hin. absent_from_trace Hin.
Qed.

(** X5. The cache file is named by the text of the id alone: two ids
    share a cache file exactly when their [str()] texts are equal.  So
    two different numbers never share a file, while the number 1 and the
    string ["1"] do. *)
Theorem file_path_by_id_text (id1 id2 : pyval) :
  (Main.file_path id1 = Main.file_path id2 <-> py_str id1 = py_str id2)
  /\
  (forall n m, Main.file_path (PInt n) = Main.file_path (PInt m) <-> n = m)
  /\ Main.file_path (PInt 1) = Main.file_path (PStr "1").
Proof.
  assert (Hiff : forall a b,
            Main.file_path a = Main.file_path b <-> py_str a = py_str b).
  { intros a b. unfold Main.file_path. split; [|by intros ->].
    intros Heq. apply (inj (String.append "headshots/")) in Heq.
    by apply append_cancel_r in Heq. }
  split; [apply Hiff|]. split; [|done].
  intros n m. rewrite Hiff. simpl. split; [apply (inj pretty)|by intros ->].
Qed.


End CacheEffects.

(** ** More on the report *)

Section ReportEffects.
Context `{Collaborators}.

Lemma headshot_effects (driver : dict) fs r fs' t :
  Main.headshot driver fs = (r, fs', t) ->
  fs ⊆ fs' /\
  (forall p, p ≠ "headshots" -> (has_url driver = true -> p ≠ cache_path driver) ->
     fs' !! p = fs !! p) /\
  (requests t = [] \/
   requests t = [Main.headshot_url driver] /\ needs_fetch fs driver = true) /\
  no_document t /\
  (has_url driver = false -> fs' = fs /\ t = [] /\ r = Ok None).
Proof.
  unfold Main.headshot, needs_fetch, has_url, cache_path.
  destruct (truthy (Main.headshot_url driver)) eqn:Hurl.
  - intros (Hgrow & Hframe & Hreq & Hnd)%download_effects.
    split; [done|]. split; [by intros p Hp Hp'; apply Hframe; auto|].
    split; [|by split].
    destruct Hreq as [Hreq|[Hreq Hmiss]]; [by left|right]. split; [done|].
    rewrite Hmiss. rewrite bool_decide_eq_false_2; [done|by intros [? ?]].
  - intros [= <- <- <-]. split; [done|]. split; [done|]. split; [by left|].
    split; [by intros f els Hin%elem_of_nil|]. done.
Qed.

Lemma main_populate_cons_run (driver : dict) rest table_data row_colors fs :
  Main.populate (driver :: rest) table_data row_colors fs =
  match Main.headshot driver fs with
  | (Ok h, fs1, t1) =>
      match Main.team_color driver with
      | Ok c =>
          match Main.populate rest (table_data ++ [Main.table_row (Main.image h) driver])
                  (row_colors ++ [c]) fs1 with
          | (r, fs2, t2) => (r, fs2, t1 ++ t2)
          end
      | Raise e => (Raise e, fs1, t1)
      end
  | (Raise e, fs1, t1) => (Raise e, fs1, t1)
  end.
Proof.
  cbn [Main.populate]. rewrite bind_run.
  destruct (Main.headshot driver fs) as [[[h|e] fs1] t1]; [|done].
  rewrite bind_run. unfold lift at 1.
  destruct (Main.team_color driver) as [c|e]; [|by rewrite app_nil_r].
  by destruct (Main.populate _ _ _ _) as [[r fs2] t2].
Qed.

Lemma needs_fetch_mono fs fs1 (driver : dict) :
  fs ⊆ fs1 -> needs_fetch fs1 driver = true -> needs_fetch fs driver = true.
Proof.
  intros Hsub. unfold needs_fetch.
  destruct (has_url driver); [|done]. simpl.
  rewrite !negb_true_iff, !bool_decide_eq_false.
  intros Hno [x Hx]. apply Hno. exists x.
  by apply (lookup_weaken _ _ _ _ Hx Hsub).
Qed.

Lemma filter_sublist_mono {A} (P Q : A -> Prop)
    `{!forall x, Decision (P x)} `{!forall x, Decision (Q x)} (l : list A) :
  (forall x, P x -> Q x) -> filter P l `sublist_of` filter Q l.
Proof.
  intros HPQ. induction l as [|x l IH]; [done|].
  rewrite !filter_cons. destruct (decide (P x)) as [HP|HP].
  - rewrite decide_True by auto. by apply sublist_skip.
  - destruct (decide (Q x)); [by apply sublist_cons|done].
Qed.

(** Everything the row loop of main.py can do to the outside world. *)
Lemma main_populate_effects drivers_data :
  forall table_data row_colors fs r fs' t,
  Main.populate drivers_data table_data row_colors fs = (r, fs', t) ->
  fs ⊆ fs' /\
  (forall p, p ≠ "headshots" ->
     (forall d, d ∈ drivers_data -> has_url d = true -> p ≠ cache_path d) ->
     fs' !! p = fs !! p) /\
  requests t `sublist_of`
    (Main.headshot_url <$> filter (fun d => needs_fetch fs d = true) drivers_data) /\
  no_document t /\
  (Forall (fun d => has_url d = false) drivers_data -> fs' = fs /\ t = []).
Proof.
  induction drivers_data as [|d ds IH]; intros td rc fs r fs' t.
  - intros [= <- <- <-]. split; [done|]. split; [done|]. split; [done|].
    split; [by intros f els Hin%elem_of_nil|]. done.
  - rewrite main_populate_cons_run.
    destruct (Main.headshot d fs) as [[rh fs1] t1] eqn:Hh.
    apply headshot_effects in Hh as (Hg1 & Hf1 & Hr1 & Hn1 & Hu1).
    assert (Hreq1 : requests t1 `sublist_of`
              (Main.headshot_url <$> filter (fun d => needs_fetch fs d = true) (d :: ds))).
    { destruct Hr1 as [->|[-> Hneed]]; [apply sublist_nil_l|].
      rewrite filter_cons, decide_True by done. cbn [fmap list_fmap].
      apply sublist_skip, sublist_nil_l. }
    assert (Hframe1 : forall p, p ≠ "headshots" ->
              (forall d0, d0 ∈ d :: ds -> has_url d0 = true -> p ≠ cache_path d0) ->
              fs1 !! p = fs !! p).
    { intros p Hp Hall. apply Hf1; [done|]. intros Hu. apply Hall; [constructor|done]. }
    assert (Hstop : forall e,
              (Raise e : result (list (list cell) * list Color), fs1, t1) = (r, fs', t) ->
              fs ⊆ fs' /\
              (forall p, p ≠ "headshots" ->
                 (forall d0, d0 ∈ d :: ds -> has_url d0 = true -> p ≠ cache_path d0) ->
                 fs' !! p = fs !! p) /\
              requests t `sublist_of`
                (Main.headshot_url <$>
                   filter (fun d => needs_fetch fs d = true) (d :: ds)) /\
              no_document t /\
              (Forall (fun d => has_url d = false) (d :: ds) -> fs' = fs /\ t = [])).
    { intros e [= <- <- <-]. split; [done|]. split; [done|]. split; [done|].
      split; [done|].
      intros [Hu _]%Forall_cons. by destruct (Hu1 Hu) as (-> & -> & _). }
    destruct rh as [h|e]; [|by apply (Hstop e)].
    destruct (Main.team_color d) as [c|e] eqn:Hc; [|by apply (Hstop e)].
    destruct (Main.populate ds _ _ fs1) as [[r2 fs2] t2] eqn:Hrest.
    intros [= <- <- <-].
    apply IH in Hrest as (Hg2 & Hf2 & Hr2 & Hn2 & Hu2).
    split; [by etrans|]. split; [|split; [|split]].
    + intros p Hp Hall. rewrite Hf2; [by apply Hframe1|done|].
      intros d0 Hd0. apply Hall. by constructor.
    + rewrite requests_app.
      destruct Hr1 as [->|[-> Hneed]].
      * cbn [app]. etrans; [exact Hr2|]. apply fmap_sublist.
        etrans; [apply (filter_sublist_mono _ (fun d => needs_fetch fs d = true))|].
        { intros x. by apply needs_fetch_mono. }
        rewrite filter_cons. destruct (decide _); [by apply sublist_cons|done].
      * rewrite filter_cons, decide_True by done. cbn [fmap list_fmap app].
        apply sublist_skip. etrans; [exact Hr2|]. apply fmap_sublist.
        apply filter_sublist_mono. intros x. by apply needs_fetch_mono.
    + by apply no_document_app.
    + intros [Hu Hus]%Forall_cons. destruct (Hu1 Hu) as (-> & -> & _).
      by destruct (Hu2 Hus) as (-> & ->).
Qed.

(** Where an exception of the row loop of main.py comes from: the
    headshot step or the colour of one record, all colours before it
    having been resolved. *)
Lemma main_populate_raise_inv drivers_data :
  forall table_data row_colors fs e fs' t,
  Main.populate drivers_data table_data row_colors fs = (Raise e, fs', t) ->
  exists before driver after,
    drivers_data = before ++ driver :: after /\
    Forall (fun d => exists c, Main.team_color d = Ok c) before /\
    (Main.team_color driver = Raise e \/
     has_url driver = true /\
     exists fs0 t0,
       fs ⊆ fs0 /\
       Main.download_headshot (Main.headshot_url driver) (Main.driver_id driver) fs0
       = (Raise e, fs', t0)).
Proof.
  induction drivers_data as [|d ds IH]; intros td rc fs e fs' t; [discriminate|].
  rewrite main_populate_cons_run.
  destruct (Main.headshot d fs) as [[[h|e0] fs1] t1] eqn:Hh.
  - pose proof Hh as (Hg1 & _)%headshot_effects.
    destruct (Main.team_color d) as [c|e0] eqn:Hc.
    + destruct (Main.populate ds _ _ fs1) as [[r2 fs2] t2] eqn:Hrest.
      intros [= -> <- <-].
      apply IH in Hrest as (before & driver & after & -> & Hok & Hwhy).
      exists (d :: before), driver, after. split; [done|].
      split; [constructor; [by exists c|done]|].
      destruct Hwhy as [Hcol|(Hu & fs0 & t0 & Hsub & Hdl)]; [by left|right].
      split; [done|]. exists fs0, t0. split; [by etrans|done].
    + intros [= <- <- <-]. exists [], d, ds. split; [done|]. split; [done|]. by left.
  - intros [= <- <- <-]. exists [], d, ds. split; [done|]. split; [done|]. right.
    unfold Main.headshot in Hh. unfold has_url.
    destruct (truthy (Main.headshot_url d)); [|discriminate].
    split; [done|]. by exists fs, t1.
Qed.

(** Records without a URL and with a colour that resolves are passed
    without a trace. *)
Lemma main_populate_skip before : forall rest table_data row_colors fs,
  Forall (fun d => has_url d = false /\ exists c, Main.team_color d = Ok c) before ->
  exists table_data' row_colors',
    Main.populate (before ++ rest) table_data row_colors fs
    = Main.populate rest table_data' row_colors' fs.
Proof.
  induction before as [|d ds IH]; intros rest td rc fs Hall; [by exists td, rc|].
  apply Forall_cons in Hall as [[Hu [c Hc]] Hall].
  destruct (IH rest (td ++ [Main.table_row (Main.image None) d]) (rc ++ [c]) fs Hall)
    as (td' & rc' & Heq).
  exists td', rc'. cbn [app]. rewrite main_populate_cons_run.
  unfold Main.headshot. unfold has_url in Hu. rewrite Hu, Hc. cbn [mret M_ret].
  rewrite Heq. by destruct (Main.populate rest td' rc' fs) as [[r fs2] t2].
Qed.

Lemma requests_logo_build t1 filename els tail :
  requests (ev_exists "f1_logo.png" :: t1 ++ ev_build filename els :: tail)
  = requests t1 ++ requests tail.
Proof.
  change (requests ([ev_exists "f1_logo.png"] ++ t1 ++ [ev_build filename els] ++ tail)
          = requests t1 ++ requests tail).
  by rewrite !requests_app.
Qed.

(** The element list of main.py in terms of its row loop: the loop
    decides the outcome, and painting the rows never raises. *)
Lemma main_elements_by_loop drivers_data fs :
  Main.elements drivers_data fs =
  match Main.populate drivers_data [Main.header] [] fs with
  | (Ok (table_data, row_colors), fs1, t1) =>
      (Ok (front fs ++
           [Table table_data Main.col_widths (Main.base_style ++ row_backgrounds row_colors)]),
       fs1, ev_exists "f1_logo.png" :: t1)
  | (Raise e, fs1, t1) => (Raise e, fs1, ev_exists "f1_logo.png" :: t1)
  end.
Proof.
  unfold Main.elements. rewrite bind_run. unfold os_path_exists at 1.
  rewrite bind_run.
  destruct (Main.populate drivers_data [Main.header] [] fs) as [[rp fs1] t1] eqn:Hpop.
  destruct rp as [[td rc]|e]; [|by rewrite ?app_nil_r].
  pose proof Hpop as Hshape. apply main_populate_ok_inv in Hshape.
  destruct Hshape as (hs & cs & Hcs & Hlen & Htd & Hrc). subst td rc.
  rewrite bind_run. unfold lift at 1.
  assert (Hn : (length ([Main.header] ++
                  zip_with (fun h d => Main.table_row (Main.image h) d) hs drivers_data) - 1
                = length cs)%nat).
  { cbn [app length]. rewrite length_zip_with, Hlen, (Forall2_length _ _ _ Hcs). lia. }
  rewrite Hn. cbn [app].
  rewrite apply_row_colors_same, base_style_same, apply_row_colors_all.
  unfold front. cbn [mret M_ret]. rewrite app_nil_r. by destruct (bool_decide _).
Qed.

(** [create_pdf] of main.py in terms of its row loop: when the loop
    raises, so does the call; otherwise the layout engine is called
    once, and the final line is printed when it returns. *)
Lemma main_create_pdf_by_loop drivers_data filename fs r fs' t :
  Main.create_pdf drivers_data filename fs = (r, fs', t) ->
  exists rp fs1 t1,
    Main.populate drivers_data [Main.header] [] fs = (rp, fs1, t1) /\
    (forall p, p ≠ filename -> fs' !! p = fs1 !! p) /\
    ((exists els tail,
        t = ev_exists "f1_logo.png" :: t1 ++ ev_build filename els :: tail /\
        (tail = [] \/ exists message, tail = [ev_print message]))
     \/
     (exists e, rp = Raise e /\ r = Raise e /\ t = ev_exists "f1_logo.png" :: t1)).
Proof.
  intros Hrun. rewrite main_create_pdf_run, main_elements_by_loop in Hrun.
  destruct (Main.populate drivers_data [Main.header] [] fs) as [[rp fs1] t1] eqn:Hpop.
  exists rp, fs1, t1. split; [done|].
  destruct rp as [[td rc]|e].
  - destruct (doc_build_outcome _ _ _) as [|e wrote]; injection Hrun as <- <- <-.
    + split; [by intros p Hp; rewrite lookup_insert_ne|].
      left. eexists _, _. split; [done|]. right. by eexists.
    + split; [intros p Hp; destruct wrote; [by rewrite lookup_insert_ne|done]|].
      left. eexists _, _. split; [done|]. by left.
  - injection Hrun as <- <- <-. split; [done|]. right. by exists e.
Qed.

Lemma main_requests_only_missing_headshots_aux drivers_data filename fs r fs' t :
  Main.create_pdf drivers_data filename fs = (r, fs', t) ->
  requests t `sublist_of`
    (Main.headshot_url <$> filter (fun d => needs_fetch fs d = true) drivers_data)
  /\ (length (requests t) <= length drivers_data)%nat.
Proof.
  intros (rp & fs1 & t1 & Hpop & _ & Hout)%main_create_pdf_by_loop.
  apply main_populate_effects in Hpop as (_ & _ & Hreq & _).
  assert (Ht : requests t = requests t1).
  { destruct Hout as [(els & tail & -> & Htail)|(e & _ & _ & ->)]; [|done].
    rewrite requests_logo_build.
    destruct Htail as [->|[message ->]]; by rewrite app_nil_r. }
  rewrite Ht. split; [done|].
  apply sublist_length in Hreq. rewrite length_fmap in Hreq.
  etrans; [exact Hreq|]. apply length_filter.
Qed.

Lemma list_filter_nil_iff_aux {A} (P : A -> bool) (l : list A) :
  (forall x, x ∈ l -> P x = false) -> filter (fun x => P x = true) l = [].
Proof.
  induction l as [|x l IH]; intros Hall; [done|].
  rewrite filter_cons, decide_False.
  - apply IH. intros y Hy. apply Hall. by constructor.
  - rewrite (Hall x) by constructor. discriminate.
Qed.

(** X7. In a run of [create_pdf] of main.py the network requests are,
    in the order of the records, headshot URLs of records that have a
    URL and no cached headshot when the run starts, at most one per such
    record; whether the run succeeds or raises. *)
Theorem main_requests_only_missing_headshots drivers_data filename fs r fs' t :
  Main.create_pdf drivers_data filename fs = (r, fs', t) ->
  requests t `sublist_of`
    (Main.headshot_url <$> filter (fun d => needs_fetch fs d = true) drivers_data)
  /\ (length (requests t) <= length drivers_data)%nat.
Proof. apply main_requests_only_missing_headshots_aux. Qed.

(** X8. With a warm cache main.py works offline: when the cache
    directory exists and the headshot of every record that has a URL is
    cached, a run of [create_pdf] makes no request and leaves every path
    other than the output file as it was. *)
Theorem main_warm_cache_offline drivers_data filename fs r fs' t :
  fs !! "headshots" = Some Dir ->
  (forall d, d ∈ drivers_data -> has_url d = true -> is_Some (fs !! cache_path d)) ->
  Main.create_pdf drivers_data filename fs = (r, fs', t) ->
  requests t = [] /\
  (forall p, p ≠ filename -> fs' !! p = fs !! p).
Proof.
  intros Hdir Hcached Hrun.
  pose proof Hrun as (Hreq & _)%main_requests_only_missing_headshots_aux.
  split.
  - apply sublist_nil_r. etrans; [exact Hreq|].
    replace (filter (fun d => needs_fetch fs d = true) drivers_data) with (@nil dict);
      [done|].
    symmetry. apply list_filter_nil_iff_aux. intros d Hin. unfold needs_fetch.
    destruct (has_url d) eqn:Hu; [|done].
    by rewrite bool_decide_eq_true_2 by by apply Hcached.
  - apply main_create_pdf_by_loop in Hrun as (rp & fs1 & t1 & Hpop & Hout & _).
    apply main_populate_effects in Hpop as (Hgrow & Hframe & _).
    assert (Hsame : forall p, fs1 !! p = fs !! p).
    { intros p. destruct (fs !! p) as [x|] eqn:Hp.
      - by apply (lookup_weaken _ _ _ _ Hp Hgrow).
      - rewrite <- Hp. apply Hframe; [congruence|].
        intros d Hin Hu ->. destruct (Hcached d Hin Hu) as [x Hx]. congruence. }
    intros p Hp. by rewrite Hout, Hsame.
Qed.

(** X9. When no record has a headshot URL, [create_pdf] of main.py
    stays away from the cache and the network: its events are the test
    for the logo, the build and the final print only, and every path
    other than the output file is as it was. *)
Theorem main_without_urls_touches_no_cache drivers_data filename fs r fs' t :
  Forall (fun d => has_url d = false) drivers_data ->
  Main.create_pdf drivers_data filename fs = (r, fs', t) ->
  (forall ev, ev ∈ t -> ~ cache_event ev) /\
  (forall p, p ≠ filename -> fs' !! p = fs !! p).
Proof.
  intros Hnone (rp & fs1 & t1 & Hpop & Hfs & Hout)%main_create_pdf_by_loop.
  apply main_populate_effects in Hpop as (_ & _ & _ & _ & Hquiet).
  destruct (Hquiet Hnone) as (-> & ->).
  split; [|done].
  intros ev Hin Hev.
  destruct Hout as [(els & tail & -> & [->|[message ->]])|(e & _ & _ & ->)];
    repeat (apply elem_of_cons in Hin as [->|Hin]; [by simpl in Hev|]);
    by apply elem_of_nil in Hin.
Qed.


(** X11. In main.py the headshot of a record is fetched before its
    colour is resolved: when a record has a URL whose image can be
    fetched and saved but a team colour that makes the colour
    constructor raise, [create_pdf] raises that exception and builds no
    document, yet the request was made and the headshot is in the cache
    afterwards. *)
Theorem main_downloads_before_colour (driver : dict) rest filename fs response img img' e :
  has_url driver = true ->
  fs !! "headshots" ≠ Some File ->
  fs !! cache_path driver = None ->
  requests_get (Main.headshot_url driver) = Ok response ->
  status_code response = 200 ->
  Image_open (content response) = Ok img ->
  Image_resize img (50, 50) = Ok img' ->
  Image_save_error img' (cache_path driver) (with_cache_dir fs) = None ->
  Main.team_color driver = Raise e ->
  exists fs',
    Main.create_pdf (driver :: rest) filename fs =
    (Raise e, fs',
     [ev_exists "f1_logo.png"; ev_makedirs "headshots"; ev_exists (cache_path driver);
      ev_get (Main.headshot_url driver); ev_save (cache_path driver)])
    /\ fs' !! cache_path driver = Some File.
Proof.
  intros Hurl Hdir Hmiss Hget Hstatus Hopen Hresize Hsave Hcolour.
  exists (<[cache_path driver := File]> (with_cache_dir fs)).
  split; [|apply lookup_insert_eq].
  rewrite main_create_pdf_run. unfold Main.elements.
  rewrite bind_run. unfold os_path_exists at 1.
  rewrite bind_run, main_populate_cons_run.
  unfold Main.headshot. unfold has_url in Hurl. rewrite Hurl.
  rewrite download_run by done. cbv zeta. unfold cache_path in *.
  rewrite bool_decide_eq_false_2 by (rewrite Hmiss; by intros [? ?]).
  rewrite Hget, Hstatus, Hopen. simpl. by rewrite Hresize, Hsave, Hcolour.
Qed.

Lemma nh_populate_raise_inv drivers_data : forall table_data row_colors e,
  NoHeadshot.populate drivers_data table_data row_colors = Raise e ->
  exists before driver after,
    drivers_data = before ++ driver :: after /\
    Forall (fun d => exists c, NoHeadshot.team_color d = Ok c) before /\
    NoHeadshot.team_color driver = Raise e.
Proof.
  induction drivers_data as [|d ds IH]; intros td rc e; simpl; [discriminate|].
  destruct (NoHeadshot.team_color d) as [c|e'] eqn:Hc; simpl.
  - intros (before & driver & after & -> & Hok & He)%IH.
    exists (d :: before), driver, after. split; [done|]. split; [|done].
    constructor; [by exists c|done].
  - intros [= ->]. by exists [], d, ds.
Qed.

(** X12. The element list of noheadshot.py fails only because of a
    team colour: if [create_pdf] raises before it calls the layout
    engine, the exception is the one raised for the first record whose
    colour cannot be resolved; the loop that paints the rows never runs
    out of its list.  The file system is untouched and the only event is
    the test for the logo. *)
Theorem noheadshot_raises_only_for_colour drivers_data fs e fs' t :
  NoHeadshot.elements drivers_data fs = (Raise e, fs', t) ->
  (exists before driver after,
     drivers_data = before ++ driver :: after /\
     Forall (fun d => exists c, NoHeadshot.team_color d = Ok c) before /\
     NoHeadshot.team_color driver = Raise e)
  /\ fs' = fs /\ t = [ev_exists "f1_logo.png"].
Proof.
  rewrite nh_elements_run.
  destruct (NoHeadshot.populate drivers_data [NoHeadshot.header] []) as [[td rc]|e'] eqn:Hpop.
  - apply nh_populate_ok in Hpop as (cs & Hcs & -> & ->).
    assert (Hn : (length ([NoHeadshot.header] ++ (NoHeadshot.table_row <$> drivers_data)) - 1
                  = length cs)%nat).
    { cbn [app length]. rewrite length_fmap, (Forall2_length _ _ _ Hcs). lia. }
    rewrite Hn. cbn [app]. rewrite apply_row_colors_all. discriminate.
  - intros [= <- <- <-]. split; [|done]. by apply (nh_populate_raise_inv _ _ _ _ Hpop).
Qed.

(** X13. The element list of main.py fails only in the steps of one
    record: if [create_pdf] raises before it calls the layout engine,
    the colours of all records before some record were resolved, and the
    exception is either the one raised for the colour of that record or
    one that escaped [download_headshot] for that record, which then has
    a URL.  Nothing that existed was changed, and no document was
    built. *)
Theorem main_elements_raise_from_headshot_or_colour drivers_data fs e fs' t :
  Main.elements drivers_data fs = (Raise e, fs', t) ->
  no_document t /\ fs ⊆ fs' /\
  exists before driver after,
    drivers_data = before ++ driver :: after /\
    Forall (fun d => exists c, Main.team_color d = Ok c) before /\
    (Main.team_color driver = Raise e \/
     has_url driver = true /\
     exists fs0 t0,
       fs ⊆ fs0 /\
       Main.download_headshot (Main.headshot_url driver) (Main.driver_id driver) fs0
       = (Raise e, fs', t0)).
Proof.
  rewrite main_elements_by_loop.
  destruct (Main.populate drivers_data [Main.header] [] fs) as [[rp fs1] t1] eqn:Hpop.
  destruct rp as [[td rc]|e']; [discriminate|].
  intros [= <- <- <-].
  pose proof Hpop as (Hgrow & _ & _ & Hnd & _)%main_populate_effects.
  split; [|split; [done|]].
  - intros f els [Hin|Hin]%elem_of_cons; [discriminate|]. by apply (Hnd f els).
  - by apply (main_populate_raise_inv _ _ _ _ _ _ _ Hpop).
Qed.

(** X1. A regular file named [headshots] is fatal to main.py.
    [os.makedirs] stands outside the [try] of [download_headshot], so
    its [FileExistsError] escapes the call, with nothing requested and
    nothing changed; and [create_pdf] raises it at the first record that
    has a URL, when the records before it have no URL and colours that
    resolve.  No document is built. *)
Theorem cache_dir_as_file_is_fatal (before : list dict) (driver : dict) after filename fs :
  fs !! "headshots" = Some File ->
  Forall (fun d => has_url d = false /\ exists c, Main.team_color d = Ok c) before ->
  has_url driver = true ->
  let e := Exn FileExistsError "[Errno 17] File exists: 'headshots'" in
  Main.download_headshot (Main.headshot_url driver) (Main.driver_id driver) fs
  = (Raise e, fs, [ev_makedirs "headshots"])
  /\
  Main.create_pdf (before ++ driver :: after) filename fs
  = (Raise e, fs, [ev_exists "f1_logo.png"; ev_makedirs "headshots"]).
Proof.
  intros Hfile Hbefore Hurl e. unfold has_url in Hurl.
  assert (Hdl : Main.download_headshot (Main.headshot_url driver) (Main.driver_id driver) fs
                = (Raise e, fs, [ev_makedirs "headshots"])).
  { by apply download_makedirs_raises. }
  split; [done|].
  rewrite main_create_pdf_run, main_elements_by_loop.
  destruct (main_populate_skip before (driver :: after) [Main.header] [] fs Hbefore)
    as (td & rc & ->).
  rewrite main_populate_cons_run. unfold Main.headshot. by rewrite Hurl, Hdl.
Qed.

(** X14. A team colour that tests true and is not a string (a number,
    [true], a non-empty array) is not a colour error but an
    [AttributeError]: it has no [lower] method, so the colour
    constructor is never reached and [create_pdf] raises, in both
    files, whatever the collaborators do. *)
Theorem non_text_colour_raises (driver : dict) v :
  driver !! "team_colour" = Some v ->
  truthy v = true ->
  (forall s, v ≠ PStr s) ->
  let e := Exn AttributeError
             ("'" +:+ type_name v +:+ "' object has no attribute 'lower'") in
  Main.team_color driver = Raise e /\
  NoHeadshot.team_color driver = Raise e /\
  forall rest filename fs,
    NoHeadshot.create_pdf (driver :: rest) filename fs
    = (Raise e, fs, [ev_exists "f1_logo.png"]).
Proof.
  intros Hk Hv Hs e.
  assert (He : NoHeadshot.team_color driver = Raise e) by by apply team_color_not_str.
  split; [by rewrite team_color_same|]. split; [done|].
  intros rest filename fs. rewrite nh_create_pdf_run, nh_elements_run.
  by rewrite (nh_populate_raises [] driver rest e).
Qed.

Lemma elem_of_row_backgrounds cs x :
  x ∈ row_backgrounds cs <-> exists i c, cs !! i = Some c /\ x = row_background i c.
Proof.
  unfold row_backgrounds. rewrite elem_of_lookup_imap. split.
  - intros (i & c & -> & Hc). by exists i, c.
  - intros (i & c & Hc & ->). by exists i, c.
Qed.

Lemma row_background_inj i j c c' :
  row_background i c = row_background j c' -> i = j /\ c = c'.
Proof. unfold row_background. intros [= Hij _ ->]. split; [lia|done]. Qed.

(** The style of a table built from the colours [cs] of the records. *)
Lemma painted_style (drivers_data : list dict) cs :
  Forall2 (fun d c => NoHeadshot.team_color d = Ok c) drivers_data cs ->
  let style := NoHeadshot.base_style ++ row_backgrounds cs in
  length style = (6 + length drivers_data)%nat /\
  (forall c, BACKGROUND (0, 0) (-1, 0) c ∈ style -> c = darkred) /\
  (forall i driver, drivers_data !! i = Some driver ->
     exists c, NoHeadshot.team_color driver = Ok c /\
       forall c', row_background i c' ∈ style <-> c' = c) /\
  (forall a b c, BACKGROUND a b c ∈ style ->
     a = (0, 0) /\ b = (-1, 0) \/
     exists i, (i < length drivers_data)%nat /\ BACKGROUND a b c = row_background i c).
Proof.
  intros Hcs style. subst style.
  assert (Hbase : forall a b c, BACKGROUND a b c ∈ NoHeadshot.base_style ->
            a = (0, 0) /\ b = (-1, 0) /\ c = darkred).
  { intros a b c Hin. unfold NoHeadshot.base_style in Hin.
    apply elem_of_cons in Hin as [[= -> -> ->]|Hin]; [done|].
    repeat (apply elem_of_cons in Hin as [Hin|Hin]; [discriminate|]).
    by apply elem_of_nil in Hin. }
  split; [|split; [|split]].
  - rewrite length_app. unfold row_backgrounds.
    rewrite length_imap, <- (Forall2_length _ _ _ Hcs). done.
  - intros c [Hin|Hin]%elem_of_app.
    + by destruct (Hbase _ _ _ Hin) as (_ & _ & ->).
    + apply elem_of_row_backgrounds in Hin as (i & c' & _ & Heq).
      unfold row_background in Heq. injection Heq as Hrow _ _. lia.
  - intros i driver Hd.
    destruct (Forall2_lookup_l _ _ _ _ _ Hcs Hd) as (c & Hc & Hcol).
    exists c. split; [done|]. intros c'. split.
    + intros [Hin|Hin]%elem_of_app.
      * destruct (Hbase _ _ _ Hin) as (Hrow & _). injection Hrow as Hrow. lia.
      * apply elem_of_row_backgrounds in Hin as (j & c'' & Hj & Heq).
        apply row_background_inj in Heq as (-> & ->). congruence.
    + intros ->. apply elem_of_app. right. by apply row_backgrounds_lookup.
  - intros a b c [Hin|Hin]%elem_of_app.
    + left. by destruct (Hbase _ _ _ Hin) as (-> & -> & _).
    + right. apply elem_of_row_backgrounds in Hin as (i & c' & Hi & Heq).
      exists i. split.
      * rewrite (Forall2_length _ _ _ Hcs). by apply lookup_lt_Some in Hi.
      * unfold row_background in *. by injection Heq as -> -> ->.
Qed.

(** X15. In the table of a successful [create_pdf], in either file, the
    style has the six table-wide commands and one background command per
    record; the row of each record is painted exactly once, with the
    colour resolved for that record; and every background command
    either is the dark red of the header row or covers one whole data
    row, so the header is never repainted. *)
Theorem rows_painted_once_header_kept drivers_data filename fs r fs' t :
  NoHeadshot.create_pdf drivers_data filename fs = (Ok r, fs', t) \/
  Main.create_pdf drivers_data filename fs = (Ok r, fs', t) ->
  exists data widths style,
    builds_table t filename data widths style /\
    length style = (6 + length drivers_data)%nat /\
    (forall c, BACKGROUND (0, 0) (-1, 0) c ∈ style -> c = darkred) /\
    (forall i driver, drivers_data !! i = Some driver ->
       exists c, NoHeadshot.team_color driver = Ok c /\
         forall c', row_background i c' ∈ style <-> c' = c) /\
    (forall a b c, BACKGROUND a b c ∈ style ->
       a = (0, 0) /\ b = (-1, 0) \/
       exists i, (i < length drivers_data)%nat /\ BACKGROUND a b c = row_background i c).
Proof.
  intros [Hrun|Hrun].
  - apply nh_create_pdf_ok_inv in Hrun as (cs & Hcs & -> & ->).
    eexists _, _, _.
    split; [by eexists [ev_exists "f1_logo.png"], (front fs), _|].
    by apply painted_style.
  - apply main_create_pdf_ok_inv in Hrun as (hs & cs & before & Hcs & Hlen & ->).
    eexists _, _, _.
    split; [by eexists before, (front fs), _|].
    by apply painted_style.
Qed.

(** X16. The document of a successful [create_pdf], in either file, is
    the title, a spacer and the table, with the logo in front exactly
    when [f1_logo.png] existed when the run started; a missing logo is
    no error.  Every row of the table, the header included, has as many
    cells as there are column widths. *)
Theorem document_layout drivers_data filename fs r fs' t :
  NoHeadshot.create_pdf drivers_data filename fs = (Ok r, fs', t) \/
  Main.create_pdf drivers_data filename fs = (Ok r, fs', t) ->
  let title :=
    Paragraph "<b><font size='18' color='darkred'>Formula 1 Drivers Report</font></b>"
              "Title" in
  exists before els data widths style message,
    t = before ++ [ev_build filename els; ev_print message] /\
    (is_Some (fs !! "f1_logo.png") ->
     els = [RLImage "f1_logo.png" 100 50; title; Spacer 1 12; Table data widths style]) /\
    (fs !! "f1_logo.png" = None ->
     els = [title; Spacer 1 12; Table data widths style]) /\
    Forall (fun row => length row = length widths) data.
Proof.
  intros Hrun title.
  assert (Hfront : forall table : flowable,
            (is_Some (fs !! "f1_logo.png") ->
             front fs ++ [table]
             = [RLImage "f1_logo.png" 100 50; title; Spacer 1 12; table]) /\
            (fs !! "f1_logo.png" = None -> front fs ++ [table] = [title; Spacer 1 12; table])).
  { intros table. unfold front. split.
    - intros Hlogo. by rewrite bool_decide_eq_true_2.
    - intros Hlogo. rewrite bool_decide_eq_false_2; [done|].
      rewrite Hlogo. by intros [? ?]. }
  destruct Hrun as [Hrun|Hrun].
  - apply nh_create_pdf_ok_inv in Hrun as (cs & Hcs & -> & ->).
    eexists [ev_exists "f1_logo.png"], _, _, _, _, _. split; [done|].
    split; [apply Hfront|]. split; [apply Hfront|].
    constructor; [done|]. apply Forall_fmap, Forall_forall. by intros d _.
  - apply main_create_pdf_ok_inv in Hrun as (hs & cs & before & Hcs & Hlen & ->).
    eexists before, _, _, _, _, _. split; [done|].
    split; [apply Hfront|]. split; [apply Hfront|].
    constructor; [done|]. apply Forall_forall. intros row Hrow.
    apply list_elem_of_lookup in Hrow as [i Hrow].
    by apply lookup_zip_with_Some in Hrow as (h & d & -> & _ & _).
Qed.

End ReportEffects.

(** ** The scripts *)

Section Scripts.
Context `{Collaborators} `{DataSource}.

Lemma fetch_drivers_run fs :
  fetch_drivers fs =
  (match requests_get (PStr "https://api.openf1.org/v1/drivers") with
   | Ok response =>
       if status_code response =? 200 then response_json response
       else Raise (Exn (OtherException "Exception") "Failed to fetch drivers data")
   | Raise e => Raise e
   end, fs, [ev_get (PStr "https://api.openf1.org/v1/drivers")]).
Proof.
  unfold fetch_drivers. cbv zeta. rewrite bind_run. unfold requests_get_url at 1.
  destruct (requests_get _) as [response|e]; [|done].
  unfold lift. by destruct (status_code response =? 200).
Qed.

(** X18. A failed fetch is fatal to both scripts and leaves nothing
    behind: when the request to the data source raises, or its status
    is not 200 (then the exception is ["Failed to fetch drivers data"]),
    or its body cannot be decoded, the script raises that exception
    after this one request, with the file system untouched: no cache
    access, no document. *)
Theorem fetch_failure_is_fatal fs e :
  let url := PStr "https://api.openf1.org/v1/drivers" in
  requests_get url = Raise e \/
  (exists response,
     requests_get url = Ok response /\ status_code response ≠ 200 /\
     e = Exn (OtherException "Exception") "Failed to fetch drivers data") \/
  (exists response,
     requests_get url = Ok response /\ status_code response = 200 /\
     response_json response = Raise e) ->
  main_py fs = (Raise e, fs, [ev_get url]) /\
  noheadshot_py fs = (Raise e, fs, [ev_get url]).
Proof.
  intros url Hfail. subst url.
  assert (Hfetch : fetch_drivers fs
            = (Raise e, fs, [ev_get (PStr "https://api.openf1.org/v1/drivers")])).
  { rewrite fetch_drivers_run.
    destruct Hfail as [->|[(response & -> & Hs & ->)|(response & -> & -> & ->)]]; [done| |done].
    by apply Z.eqb_neq in Hs as ->. }
  unfold main_py, noheadshot_py. by rewrite !bind_run, Hfetch.
Qed.

Lemma noheadshot_elements_raise drivers_data fs e fs' t :
  NoHeadshot.elements drivers_data fs = (Raise e, fs', t) ->
  fs' = fs /\ t = [ev_exists "f1_logo.png"].
Proof.
  rewrite nh_elements_run.
  destruct (NoHeadshot.populate _ _ _) as [[td rc]|e']; [|by intros [= <- <- <-]].
  by destruct (NoHeadshot.apply_row_colors _ _ _) as [style|e']; intros [= <- <- <-].
Qed.

(** X19. noheadshot.py goes to the network exactly once, for the data
    source, whatever it is answered and whether it succeeds or raises;
    it never touches the headshot cache, and every path other than its
    output file is as it was. *)
Theorem noheadshot_py_single_request fs r fs' t :
  noheadshot_py fs = (r, fs', t) ->
  requests t = [PStr "https://api.openf1.org/v1/drivers"] /\
  (forall ev, ev ∈ t ->
     ev = ev_get (PStr "https://api.openf1.org/v1/drivers") \/ ~ cache_event ev) /\
  (forall p, p ≠ NoHeadshot.default_filename -> fs' !! p = fs !! p).
Proof.
  assert (Hev : forall t0 : list event,
            Forall (fun ev => ~ cache_event ev) t0 ->
            forall ev, ev ∈ ev_get (PStr "https://api.openf1.org/v1/drivers") :: t0 ->
              ev = ev_get (PStr "https://api.openf1.org/v1/drivers") \/ ~ cache_event ev).
  { intros t0 Ht0 ev [->|Hin]%elem_of_cons; [by left|right].
    rewrite Forall_forall in Ht0. by apply Ht0. }
  assert (Hlogo : ~ cache_event (ev_exists "f1_logo.png")) by (intros Hc; by apply Hc).
  unfold noheadshot_py. rewrite bind_run, fetch_drivers_run.
  destruct (match requests_get _ with Ok _ => _ | Raise _ => _ end) as [ds|e].
  2:{ intros [= <- <- <-]. split; [done|]. split; [|done].
      intros ev Hin%list_elem_of_singleton. by left. }
  rewrite nh_create_pdf_run.
  destruct (NoHeadshot.elements ds fs) as [[[els|e] fs1] t1] eqn:Hel.
  - apply nh_elements_ok_inv in Hel as (cs & _ & _ & -> & ->).
    destruct (doc_build_outcome _ _ _) as [|e wrote]; intros [= <- <- <-];
      (split; [done|]); split.
    + apply Hev. repeat constructor; first [exact Hlogo | by intros []].
    + intros p Hp. by rewrite lookup_insert_ne.
    + apply Hev. repeat constructor; first [exact Hlogo | by intros []].
    + intros p Hp. destruct wrote; [by rewrite lookup_insert_ne|done].
  - apply noheadshot_elements_raise in Hel as (-> & ->).
    intros [= <- <- <-]. split; [done|]. split; [|done].
    apply Hev. repeat constructor; first [exact Hlogo | by intros []].
Qed.

End Scripts.

(** ** Closed examples of the further properties *)

Lemma cache_dir_as_file_is_fatal_witness :
  let fs : filesystem := {[ "headshots" := File ]} in
  let e := Exn FileExistsError "[Errno 17] File exists: 'headshots'" in
  Main.download_headshot (Main.headshot_url verstappen) (Main.driver_id verstappen) fs
  = (Raise e, fs, [ev_makedirs "headshots"])
  /\
  Main.create_pdf ([only_last_name] ++ verstappen :: [only_last_name])
    Main.default_filename fs
  = (Raise e, fs, [ev_exists "f1_logo.png"; ev_makedirs "headshots"]).
Proof.
  intros fs e.
  apply (cache_dir_as_file_is_fatal [only_last_name] verstappen [only_last_name]
           Main.default_filename fs).
  - reflexivity.
  - constructor; [|constructor]. split; [reflexivity|]. eexists. reflexivity.
  - reflexivity.
Defined.


Lemma download_requests_at_most_once_witness :
  let run := Main.download_headshot (PStr "http://x/1.png") (PInt 1) ∅ in
  (length (requests run.2) <= 1)%nat /\
  (forall url, url ∈ requests run.2 ->
     url = PStr "http://x/1.png" /\ (∅ : filesystem) !! Main.file_path (PInt 1) = None) /\
  (is_Some ((∅ : filesystem) !! Main.file_path (PInt 1)) -> requests run.2 = []).
Proof.
  intros run.
  exact (download_requests_at_most_once (PStr "http://x/1.png") (PInt 1) ∅
           run.1.1 run.1.2 run.2 eq_refl).
Defined.

Lemma download_stores_image_witness :
  exists fs',
    Main.download_headshot (PStr "http://x/1.png") (PInt 1) ∅ =
    (Ok (Some (Main.file_path (PInt 1))), fs',
     [ev_makedirs "headshots"; ev_exists (Main.file_path (PInt 1));
      ev_get (PStr "http://x/1.png"); ev_save (Main.file_path (PInt 1))])
    /\ fs' !! "headshots" = Some Dir
    /\ fs' !! Main.file_path (PInt 1) = Some File
    /\ no_warning [ev_makedirs "headshots"; ev_exists (Main.file_path (PInt 1));
                   ev_get (PStr "http://x/1.png"); ev_save (Main.file_path (PInt 1))].
Proof.
  apply (download_stores_image (H := sample) (PStr "http://x/1.png") (PInt 1) ∅
           (mkResponse 200 "image bytes")
           ((200, 200) : @PILImage sample) ((50, 50) : @PILImage sample)).
  - reflexivity.
  - rewrite lookup_empty. discriminate.
  - apply lookup_empty.
  - reflexivity.
  - reflexivity.
  - reflexivity.
  - reflexivity.
  - reflexivity.
Defined.


Lemma main_requests_only_missing_headshots_witness :
  let run := Main.create_pdf [verstappen; only_last_name] Main.default_filename ∅ in
  requests run.2 `sublist_of`
    (Main.headshot_url <$>
       filter (fun d => needs_fetch ∅ d = true) [verstappen; only_last_name])
  /\ (length (requests run.2) <= 2)%nat.
Proof.
  intros run.
  exact (main_requests_only_missing_headshots [verstappen; only_last_name]
           Main.default_filename ∅ run.1.1 run.1.2 run.2 eq_refl).
Defined.

Lemma main_warm_cache_offline_witness :
  let warm := (Main.create_pdf [verstappen] Main.default_filename ∅).1.2 in
  let run := Main.create_pdf [verstappen] Main.default_filename warm in
  requests run.2 = [] /\
  (forall p, p ≠ Main.default_filename -> run.1.2 !! p = warm !! p).
Proof.
  intros warm run.
  apply (main_warm_cache_offline [verstappen] Main.default_filename warm
           run.1.1 run.1.2 run.2).
  - reflexivity.
  - intros d Hin%list_elem_of_singleton _. subst d. exists File. reflexivity.
  - reflexivity.
Defined.

Lemma main_without_urls_touches_no_cache_witness :
  let run := Main.create_pdf [only_last_name] Main.default_filename with_notes in
  (forall ev, ev ∈ run.2 -> ~ cache_event ev) /\
  (forall p, p ≠ Main.default_filename -> run.1.2 !! p = with_notes !! p).
Proof.
  intros run.
  apply (main_without_urls_touches_no_cache [only_last_name] Main.default_filename
           with_notes run.1.1 run.1.2 run.2).
  - by constructor.
  - reflexivity.
Defined.


Lemma main_downloads_before_colour_witness :
  exists fs',
    Main.create_pdf [verstappen_bad_colour] Main.default_filename ∅ =
    (Raise not_hex, fs',
     [ev_exists "f1_logo.png"; ev_makedirs "headshots";
      ev_exists (cache_path verstappen_bad_colour);
      ev_get (Main.headshot_url verstappen_bad_colour);
      ev_save (cache_path verstappen_bad_colour)])
    /\ fs' !! cache_path verstappen_bad_colour = Some File.
Proof.
  apply (main_downloads_before_colour (H := sample) verstappen_bad_colour []
           Main.default_filename ∅ (mkResponse 200 "image bytes")
           ((200, 200) : @PILImage sample) ((50, 50) : @PILImage sample) not_hex).
  - reflexivity.
  - rewrite lookup_empty. discriminate.
  - apply lookup_empty.
  - reflexivity.
  - reflexivity.
  - reflexivity.
  - reflexivity.
  - reflexivity.
  - reflexivity.
Defined.

Lemma noheadshot_raises_only_for_colour_witness :
  let run := NoHeadshot.elements [verstappen; verstappen_bad_colour] ∅ in
  (exists before driver after,
     [verstappen; verstappen_bad_colour] = before ++ driver :: after /\
     Forall (fun d => exists c, NoHeadshot.team_color d = Ok c) before /\
     NoHeadshot.team_color driver = Raise not_hex)
  /\ run.1.2 = ∅ /\ run.2 = [ev_exists "f1_logo.png"].
Proof.
  intros run.
  exact (noheadshot_raises_only_for_colour [verstappen; verstappen_bad_colour]
           ∅ not_hex run.1.2 run.2 eq_refl).
Defined.

Lemma main_elements_raise_from_headshot_or_colour_witness :
  let run := Main.elements [verstappen; verstappen_bad_colour] ∅ in
  no_document run.2 /\ ∅ ⊆ run.1.2 /\
  exists before driver after,
    [verstappen; verstappen_bad_colour] = before ++ driver :: after /\
    Forall (fun d => exists c, Main.team_color d = Ok c) before /\
    (Main.team_color driver = Raise not_hex \/
     has_url driver = true /\
     exists fs0 t0,
       ∅ ⊆ fs0 /\
       Main.download_headshot (Main.headshot_url driver) (Main.driver_id driver) fs0
       = (Raise not_hex, run.1.2, t0)).
Proof.
  intros run.
  exact (main_elements_raise_from_headshot_or_colour [verstappen; verstappen_bad_colour]
           ∅ not_hex run.1.2 run.2 eq_refl).
Defined.

Lemma non_text_colour_raises_witness :
  let driver : dict := {[ "team_colour" := PInt 3671 ]} in
  let e := Exn AttributeError "'int' object has no attribute 'lower'" in
  Main.team_color driver = Raise e /\
  NoHeadshot.team_color driver = Raise e /\
  forall rest filename fs,
    NoHeadshot.create_pdf (driver :: rest) filename fs
    = (Raise e, fs, [ev_exists "f1_logo.png"]).
Proof.
  intros driver e.
  apply (non_text_colour_raises driver (PInt 3671)).
  - reflexivity.
  - reflexivity.
  - discriminate.
Defined.

Lemma rows_painted_once_header_kept_witness :
  let run := NoHeadshot.create_pdf [verstappen; only_last_name]
               NoHeadshot.default_filename ∅ in
  exists data widths style,
    builds_table run.2 NoHeadshot.default_filename data widths style /\
    length style = 8%nat /\
    (forall c, BACKGROUND (0, 0) (-1, 0) c ∈ style -> c = darkred) /\
    (forall i driver, [verstappen; only_last_name] !! i = Some driver ->
       exists c, NoHeadshot.team_color driver = Ok c /\
         forall c', row_background i c' ∈ style <-> c' = c) /\
    (forall a b c, BACKGROUND a b c ∈ style ->
       a = (0, 0) /\ b = (-1, 0) \/
       exists i, (i < 2)%nat /\ BACKGROUND a b c = row_background i c).
Proof.
  intros run.
  exact (rows_painted_once_header_kept [verstappen; only_last_name]
           NoHeadshot.default_filename ∅ tt run.1.2 run.2 (or_introl eq_refl)).
Defined.

Lemma document_layout_witness :
  let run := Main.create_pdf [verstappen] Main.default_filename
               {[ "f1_logo.png" := File ]} in
  let title :=
    Paragraph "<b><font size='18' color='darkred'>Formula 1 Drivers Report</font></b>"
              "Title" in
  exists before els data widths style message,
    run.2 = before ++ [ev_build Main.default_filename els; ev_print message] /\
    (is_Some (({[ "f1_logo.png" := File ]} : filesystem) !! "f1_logo.png") ->
     els = [RLImage "f1_logo.png" 100 50; title; Spacer 1 12; Table data widths style]) /\
    (({[ "f1_logo.png" := File ]} : filesystem) !! "f1_logo.png" = None ->
     els = [title; Spacer 1 12; Table data widths style]) /\
    Forall (fun row => length row = length widths) data.
Proof.
  intros run.
  exact (document_layout [verstappen] Main.default_filename {[ "f1_logo.png" := File ]}
           tt run.1.2 run.2 (or_intror eq_refl)).
Defined.

Lemma fetch_failure_is_fatal_witness :
  let e := Exn (OtherException "ConnectionError") "connection failed" in
  main_py ∅ = (Raise e, ∅, [ev_get (PStr "https://api.openf1.org/v1/drivers")]) /\
  noheadshot_py ∅ = (Raise e, ∅, [ev_get (PStr "https://api.openf1.org/v1/drivers")]).
Proof.
  intros e.
  exact (fetch_failure_is_fatal ∅ e (or_introl eq_refl)).
Defined.

Lemma noheadshot_py_single_request_witness :
  let run := noheadshot_py (H := api_sample) ∅ in
  run.1.1 = Ok tt /\
  requests run.2 = [PStr "https://api.openf1.org/v1/drivers"] /\
  (forall ev, ev ∈ run.2 ->
     ev = ev_get (PStr "https://api.openf1.org/v1/drivers") \/ ~ cache_event ev) /\
  (forall p, p ≠ NoHeadshot.default_filename -> run.1.2 !! p = (∅ : filesystem) !! p).
Proof.
  intros run. split; [reflexivity|].
  exact (noheadshot_py_single_request (H := api_sample) ∅ run.1.1 run.1.2 run.2 eq_refl).
Defined.
